(** * Map and layout helpers of the ArcGIS integration script

    A shallow embedding of [function.py]: the two procedures
    [create_single_map] and [create_standard_layout], the Python values they
    compute with, and the part of the host object model (project, maps,
    layers, symbology, layouts, layout elements) that they read and mutate.

    The host application is not part of the script.  Its objects are
    modelled as a store threaded through a state-and-exception monad; what
    the host alone decides (which layers a new map starts with, what a
    dataset loads as, what [updateRenderer] builds, which styles exist, ...)
    is left open in the class [Engine], together with what [int] reads
    from a string and the digit limit of [str], which depend on the
    interpreter of the session. *)

From Stdlib Require Import ZArith QArith String Ascii OrdersEx Sorted Permutation.
From stdpp Require Import base option list strings gmap pretty.

Open Scope Z_scope.

(** ** Exceptions and results *)

(** The exceptions the script can end with, told apart by where they are
    raised.  The first four are raised by Python on the script's own
    expressions ([raise ValueError(...)], [int(...)], [xs[0]], [None.get],
    [<] between unlike values); [HostError] stands for anything raised
    inside a host call. *)
Inductive exn : Type :=
  | ValueError (msg : string)
  | IndexError (msg : string)
  | AttributeError (msg : string)
  | TypeError (msg : string)
  | HostError (msg : string).

Inductive result (A : Type) : Type :=
  | Ok (a : A)
  | Err (e : exn).
Arguments Ok {A} a.
Arguments Err {A} e.

Definition result_bind {A B} (r : result A) (f : A → result B) : result B :=
  match r with
  | Ok a => f a
  | Err e => Err e
  end.

(** What a host call answers: a value, or a failure of its own. *)
Inductive host_reply (A : Type) : Type :=
  | Done (a : A)
  | Failed (msg : string).
Arguments Done {A} a.
Arguments Failed {A} msg.

Definition from_host {A} (r : host_reply A) : result A :=
  match r with
  | Done a => Ok a
  | Failed msg => Err (HostError msg)
  end.

#[global] Instance result_ret : MRet result := λ A a, Ok a.
#[global] Instance result_mbind : MBind result := λ A B f r, result_bind r f.
#[global] Instance result_fmap : FMap result :=
  λ A B f r, match r with Ok a => Ok (f a) | Err e => Err e end.

(** ** Python values and built-ins *)

(** The values found in [item.values]: the host hands out strings, and the
    script passes them through [int(...)], which also accepts integers.
    A string is kept as the bytes of its UTF-8 form, which [<] orders as
    it orders the code points. *)
Inductive pyval : Type :=
  | PInt (z : Z)
  | PStr (s : string).

#[global] Instance pyval_eq_dec : EqDecision pyval.
Proof. solve_decision. Defined.

(** [xs[0]] *)
Definition index0 {A} (xs : list A) : result A :=
  match xs with
  | x :: _ => Ok x
  | [] => Err (IndexError "list index out of range")
  end.

(** [a < b]: integers by value, strings by code point, anything else is a
    [TypeError]. *)
Definition py_lt (a b : pyval) : result bool :=
  match a, b with
  | PInt x, PInt y => Ok (x <? y)%Z
  | PStr s, PStr t =>
      Ok match String_as_OT.compare s t with Lt => true | _ => false end
  | PInt _, PStr _ =>
      Err (TypeError "'<' not supported between instances of 'int' and 'str'")
  | PStr _, PInt _ =>
      Err (TypeError "'<' not supported between instances of 'str' and 'int'")
  end.

(** [label_map.get]: looking up the method on the mapping.  The default
    of the parameter is [None], which has no [get]. *)
Definition bound_get (label_map : option (gmap Z string))
    : result (gmap Z string) :=
  match label_map with
  | Some d => Ok d
  | None => Err (AttributeError "'NoneType' object has no attribute 'get'")
  end.

(** [d.get(val, dflt)] *)
Definition dict_get (d : gmap Z string) (val : Z) (dflt : string) : string :=
  default dflt (d !! val).

(** What [int(s)] answers for a string [s]: the integer, or the message of
    its [ValueError]. *)
Inductive int_reply : Type :=
  | IntValue (z : Z)
  | IntError (msg : string).

(** [xs.sort(key=...)] on a list already paired with its keys.  The sort
    is stable and compares with [<] only; the result of a stable sort does
    not depend on the algorithm, so insertion is used here. *)
Fixpoint insert_keyed {A} (kx : pyval * A) (l : list (pyval * A))
    : result (list (pyval * A)) :=
  match l with
  | [] => Ok [kx]
  | ky :: r =>
      b ← py_lt ky.1 kx.1;
      if b : bool then (ky ::.) <$> insert_keyed kx r else Ok (kx :: ky :: r)
  end.

Fixpoint sort_keyed {A} (l : list (pyval * A)) : result (list (pyval * A)) :=
  match l with
  | [] => Ok []
  | kx :: r => sort_keyed r ≫= insert_keyed kx
  end.

(** Keys are computed for the whole list before anything is compared. *)
Fixpoint with_keys {A} (key : A → result pyval) (l : list A)
    : result (list (pyval * A)) :=
  match l with
  | [] => Ok []
  | x :: r => k ← key x; kr ← with_keys key r; Ok ((k, x) :: kr)
  end.

Definition list_sort {A} (key : A → result pyval) (l : list A) : result (list A) :=
  kl ← with_keys key l;
  sorted ← sort_keyed kl;
  Ok (sorted.*2).

(** ** The host object model *)

(** Page coordinates and sizes are written in the script as decimal
    literals and only handed on to the host; they are kept as the exact
    decimal written. *)
Definition number : Type := Q.

Record ColorRamp : Type := { ramp_name : string }.

(** An entry of a unique-value group: [values] is a list of value lists. *)
Record Item : Type := {
  item_values : list (list pyval);
  item_label : string;
}.

Record ItemGroup : Type := {
  grp_heading : string;
  grp_items : list Item;
}.

(** The attributes of [sym.renderer] that the script touches. *)
Record Renderer : Type := {
  rnd_type : string;
  colorRamp : option ColorRamp;
  rnd_fields : list string;
  rnd_groups : list ItemGroup;
  classificationField : string;
  classificationMethod : string;
  breakCount : Z;
}.

Record Symbology : Type := { sym_renderer : Renderer }.

Record Layer : Type := {
  lyr_name : string;
  isBasemapLayer : bool;
  lyr_symbology : Symbology;
}.

(** Objects are referred to by their index in the store. *)
Definition layer_ref : Type := nat.
Definition map_ref : Type := nat.
Definition layout_ref : Type := nat.

Record Map : Type := {
  mp_name : string;
  map_layers : list layer_ref;
}.

Record Point : Type := { pt_X : number; pt_Y : number }.

Record Extent : Type := {
  XMin : number; YMin : number; XMax : number; YMax : number;
}.

Record StyleItem : Type := {
  style_class : string;
  style_name : string;
}.

Record CIMGraphicFrame : Type := {
  borderSymbol : option string;
  backgroundSymbol : option string;
}.

Record CIMLegendItem : Type := {
  legend_layer : layer_ref;
  showLayerName : bool;
  showHeading : bool;
}.

(** The elements of a layout, as found in its CIM definition. *)
Inductive CIMElement : Type :=
  | CIMMapFrame (frame : Extent) (view : map_ref)
      (graphicFrame : CIMGraphicFrame) (camera : option Extent)
  | CIMTextGraphic (anchor : Point) (geometry : string) (text : string)
      (size : Z) (style : StyleItem) (placement : string)
      (fontFamilyName : string)
  | CIMLegend (anchor : Point) (frame : nat) (style : StyleItem)
      (elementWidth elementHeight : option number)
      (legend_items : list CIMLegendItem)
  | CIMScaleLine (anchor : Point) (frame : nat) (style : StyleItem)
  | CIMMarkerNorthArrow (anchor : Point) (frame : nat) (style : StyleItem).

(** [type(elm).__name__] *)
Definition type_name (elm : CIMElement) : string :=
  match elm with
  | CIMMapFrame _ _ _ _ => "CIMMapFrame"
  | CIMTextGraphic _ _ _ _ _ _ _ => "CIMTextGraphic"
  | CIMLegend _ _ _ _ _ _ => "CIMLegend"
  | CIMScaleLine _ _ _ => "CIMScaleLine"
  | CIMMarkerNorthArrow _ _ _ => "CIMMarkerNorthArrow"
  end.

(** A layout and, at the same time, its CIM definition. *)
Record Layout : Type := {
  lyt_name : string;
  page_width : number;
  page_height : number;
  page_units : string;
  lyt_elements : list CIMElement;
}.

(** An element of a layout, as the script holds it: the layout and the
    position of the element in it. *)
Definition element_ref : Type := layout_ref * nat.

(** The project [aprx]: every object the host has created, by reference. *)
Record Project : Type := {
  prj_maps : list Map;
  prj_layers : list Layer;
  prj_layouts : list Layout;
}.

(** What the session decides: the two conversions of the interpreter that
    depend on its version and settings, and all that the host alone
    decides. *)
Class Engine : Type := {
  (** [int(s)] for a string [s], in base 10 *)
  python_int : string → int_reply;
  (** [sys.get_int_max_str_digits()]; 0 where conversions have no limit *)
  python_max_str_digits : nat;
  (** the layers a map made by [createMap] starts with *)
  host_new_map_layers : string → list Layer;
  (** the layer [addDataFromPath] loads from a path *)
  host_open_dataset : string → host_reply Layer;
  (** [sym.updateRenderer(name)] *)
  host_updateRenderer : string → Symbology → host_reply Symbology;
  (** [aprx.listColorRamps(wildcard)] *)
  host_listColorRamps : string → list ColorRamp;
  (** the work done by the host when [renderer.fields] is assigned *)
  host_set_fields : list string → Renderer → host_reply Renderer;
  (** [renderer.reclassify()] *)
  host_reclassify : Renderer → host_reply Renderer;
  (** the graphic frame a new map frame is drawn with *)
  host_default_graphicFrame : CIMGraphicFrame;
  (** [mf.getLayerExtent(layer)] *)
  host_getLayerExtent : Layer → host_reply Extent;
  (** [aprx.listStyleItems(style, class, wildcard)] *)
  host_listStyleItems : string → string → string → list StyleItem;
  (** the anchor placement and the font a style gives a new text element *)
  host_text_defaults : StyleItem → string * string;
  (** the items a new legend shows for the layers of its map *)
  host_legend_items : StyleItem → list layer_ref → list CIMLegendItem;
}.

(** ** The monad: project state and exceptions *)

(** The script reaches the project through the name [aprx], which the
    session supplies.  A computation runs on the project and ends with a
    value or an exception; the project reached is kept in both cases. *)
Definition M (A : Type) : Type := Project → result A * Project.

Definition M_bind {A B} (m : M A) (f : A → M B) : M B :=
  λ s, match m s with
       | (Ok a, s') => f a s'
       | (Err e, s') => (Err e, s')
       end.

#[global] Instance M_ret : MRet M := λ A a s, (Ok a, s).
#[global] Instance M_mbind : MBind M := λ A B f m, M_bind m f.

Definition raise {A} (e : exn) : M A := λ s, (Err e, s).
Definition lift {A} (r : result A) : M A := λ s, (r, s).
Definition get_project : M Project := λ s, (Ok s, s).
Definition put_project (s : Project) : M unit := λ _, (Ok (), s).

(** [for x in xs: body] *)
Fixpoint for_each {A} (xs : list A) (body : A → M unit) : M unit :=
  match xs with
  | [] => mret ()
  | x :: r => body x ≫= λ _, for_each r body
  end.

(** Reading an object through a reference; the store never frees. *)
Definition deref {A} (what : string) (heap : Project → list A) (r : nat) : M A :=
  λ s, match heap s !! r with
       | Some a => (Ok a, s)
       | None => (Err (HostError ("stale " +:+ what)), s)
       end.

(** ** Attribute assignment *)

Definition set_item_label (lbl : string) (it : Item) : Item :=
  {| item_values := item_values it; item_label := lbl |}.

Definition set_grp_items (its : list Item) (g : ItemGroup) : ItemGroup :=
  {| grp_heading := grp_heading g; grp_items := its |}.

Definition set_colorRamp (ramp : ColorRamp) (r : Renderer) : Renderer :=
  {| rnd_type := rnd_type r; colorRamp := Some ramp;
     rnd_fields := rnd_fields r; rnd_groups := rnd_groups r;
     classificationField := classificationField r;
     classificationMethod := classificationMethod r;
     breakCount := breakCount r |}.

Definition set_rnd_groups (gs : list ItemGroup) (r : Renderer) : Renderer :=
  {| rnd_type := rnd_type r; colorRamp := colorRamp r;
     rnd_fields := rnd_fields r; rnd_groups := gs;
     classificationField := classificationField r;
     classificationMethod := classificationMethod r;
     breakCount := breakCount r |}.

Definition set_classificationField (f : string) (r : Renderer) : Renderer :=
  {| rnd_type := rnd_type r; colorRamp := colorRamp r;
     rnd_fields := rnd_fields r; rnd_groups := rnd_groups r;
     classificationField := f;
     classificationMethod := classificationMethod r;
     breakCount := breakCount r |}.

Definition set_classificationMethod (c : string) (r : Renderer) : Renderer :=
  {| rnd_type := rnd_type r; colorRamp := colorRamp r;
     rnd_fields := rnd_fields r; rnd_groups := rnd_groups r;
     classificationField := classificationField r;
     classificationMethod := c;
     breakCount := breakCount r |}.

Definition set_breakCount (n : Z) (r : Renderer) : Renderer :=
  {| rnd_type := rnd_type r; colorRamp := colorRamp r;
     rnd_fields := rnd_fields r; rnd_groups := rnd_groups r;
     classificationField := classificationField r;
     classificationMethod := classificationMethod r;
     breakCount := n |}.

Definition set_lyr_name (n : string) (l : Layer) : Layer :=
  {| lyr_name := n; isBasemapLayer := isBasemapLayer l;
     lyr_symbology := lyr_symbology l |}.

Definition set_lyr_symbology (sym : Symbology) (l : Layer) : Layer :=
  {| lyr_name := lyr_name l; isBasemapLayer := isBasemapLayer l;
     lyr_symbology := sym |}.

Definition set_map_layers (ls : list layer_ref) (m : Map) : Map :=
  {| mp_name := mp_name m; map_layers := ls |}.

Definition set_prj_maps (ms : list Map) (s : Project) : Project :=
  {| prj_maps := ms; prj_layers := prj_layers s; prj_layouts := prj_layouts s |}.

Definition set_prj_layers (ls : list Layer) (s : Project) : Project :=
  {| prj_maps := prj_maps s; prj_layers := ls; prj_layouts := prj_layouts s |}.

Definition set_prj_layouts (ls : list Layout) (s : Project) : Project :=
  {| prj_maps := prj_maps s; prj_layers := prj_layers s; prj_layouts := ls |}.

Definition set_lyt_elements (es : list CIMElement) (l : Layout) : Layout :=
  {| lyt_name := lyt_name l; page_width := page_width l;
     page_height := page_height l; page_units := page_units l;
     lyt_elements := es |}.

(** ** Host calls on maps and layers *)

Section Script.
Context `{Engine}.

(** [aprx.createMap(name)]: a new map holding the layers the host gives
    every new map. *)
Definition createMap (name : string) : M map_ref :=
  s ← get_project;
  let ls := host_new_map_layers name in
  let refs := seq (length (prj_layers s)) (length ls) in
  let m := {| mp_name := name; map_layers := refs |} in
  put_project
    (set_prj_maps (prj_maps s ++ [m]) (set_prj_layers (prj_layers s ++ ls) s));;
  mret (length (prj_maps s)).

(** [m.addDataFromPath(path)]: the loaded layer is put on top of the map. *)
Definition addDataFromPath (m : map_ref) (path : string) : M layer_ref :=
  l ← lift (from_host (host_open_dataset path));
  mp ← deref "map" prj_maps m;
  s ← get_project;
  let r := length (prj_layers s) in
  put_project
    (set_prj_maps (<[m := set_map_layers (r :: map_layers mp) mp]> (prj_maps s))
       (set_prj_layers (prj_layers s ++ [l]) s));;
  mret r.

(** An assignment to an attribute of a layer. *)
Definition update_layer (layer : layer_ref) (f : Layer → Layer) : M unit :=
  l ← deref "layer" prj_layers layer;
  s ← get_project;
  put_project (set_prj_layers (<[layer := f l]> (prj_layers s)) s).

(** [m.listLayers()]: a new list of the layers of the map. *)
Definition listLayers (m : map_ref) : M (list layer_ref) :=
  mp ← deref "map" prj_maps m;
  mret (map_layers mp).

(** [m.removeLayer(lyr)] *)
Definition removeLayer (m : map_ref) (lyr : layer_ref) : M unit :=
  mp ← deref "map" prj_maps m;
  s ← get_project;
  let ls := filter (λ r, r ≠ lyr) (map_layers mp) in
  put_project (set_prj_maps (<[m := set_map_layers ls mp]> (prj_maps s)) s).

(** ** [create_single_map] *)

(** [int(v)]: an integer is itself, a string is read by the interpreter. *)
Definition py_int (v : pyval) : result Z :=
  match v with
  | PInt z => Ok z
  | PStr s =>
      match python_int s with
      | IntValue z => Ok z
      | IntError msg => Err (ValueError msg)
      end
  end.

(** [str(z)] for an integer: its decimal string, unless it has more digits
    than the limit of the interpreter. *)
Definition py_str (z : Z) : result string :=
  let digits := String.length (pretty (Z.abs z)) in
  if ((0 <? python_max_str_digits) && (python_max_str_digits <? digits))%nat
  then
    Err (ValueError
           ("Exceeds the limit (" +:+ pretty python_max_str_digits +:+
            " digits) for integer string conversion; " +:+
            "use sys.set_int_max_str_digits() to increase the limit"))
  else Ok (pretty z).

(** The key of the sort, [lambda g: g.values[0][0]] *)
Definition first_value (g : Item) : result pyval :=
  v0 ← index0 (item_values g);
  index0 v0.

(** One turn of the relabelling loop:
    [val = int(item.values[0][0]); item.label = label_map.get(val, str(val))].
    In the call, [label_map.get] is looked up first, then [str(val)] is
    computed, then the method is called. *)
Definition relabel_item (label_map : option (gmap Z string)) (item : Item)
    : result Item :=
  v ← first_value item;
  val ← py_int v;
  d ← bound_get label_map;
  text ← py_str val;
  Ok (set_item_label (dict_get d val text) item).

(** [for item in items: ...], stopping at the first exception *)
Fixpoint relabel (label_map : option (gmap Z string)) (items : list Item)
    : result (list Item) :=
  match items with
  | [] => Ok []
  | item :: rest =>
      item' ← relabel_item label_map item;
      rest' ← relabel label_map rest;
      Ok (item' :: rest')
  end.

(** The branch for ["UniqueValueRenderer"] *)
Definition unique_value_symbology (variable_name : string)
    (label_map : option (gmap Z string)) (sym : Symbology) : result Symbology :=
  r ← from_host (host_set_fields [variable_name] (sym_renderer sym));
  g0 ← index0 (rnd_groups r);
  let items := grp_items g0 in
  items ← list_sort first_value items;
  items ← relabel label_map items;
  Ok {| sym_renderer :=
          set_rnd_groups (set_grp_items items g0 :: tail (rnd_groups r)) r |}.

(** The branch for ["GraduatedColorsRenderer"] *)
Definition graduated_colors_symbology (variable_name : string)
    (classification_method : string) (break_count : Z) (sym : Symbology)
    : result Symbology :=
  let r := set_classificationField variable_name (sym_renderer sym) in
  let r := set_classificationMethod classification_method r in
  let r := set_breakCount break_count r in
  r ← from_host (host_reclassify r);
  Ok {| sym_renderer := r |}.

(** The defaults of the optional parameters *)
Definition default_classification_method : string := "NaturalBreaks".
Definition default_break_count : Z := 5.

(** Lines 49 to 62, the part of [create_single_map] that comes before the
    renderer is looked at: it ends with the map, the layer and the copy
    [sym] of the layer's symbology, renderer updated and colour ramp set. *)
Definition prepare_symbology
    (map_name layer_path layer_name renderer color_map : string)
    : M (map_ref * layer_ref * Symbology) :=
  m ← createMap map_name;
  layer ← addDataFromPath m layer_path;
  update_layer layer (set_lyr_name layer_name);;
  (* Remove default basemap layers *)
  lyrs ← listLayers m;
  for_each lyrs (λ lyr,
    l ← deref "layer" prj_layers lyr;
    if isBasemapLayer l then removeLayer m lyr else mret ());;
  l ← deref "layer" prj_layers layer;
  let sym := lyr_symbology l in
  sym ← lift (from_host (host_updateRenderer renderer sym));
  ramp ← lift (index0 (host_listColorRamps color_map));
  let sym := {| sym_renderer := set_colorRamp ramp (sym_renderer sym) |} in
  mret (m, layer, sym).

(** An optional parameter is [None] when the caller leaves it out; for
    [label_map] that is also the value the script then sees. *)
Definition create_single_map
    (map_name layer_path layer_name renderer variable_name color_map : string)
    (label_map : option (gmap Z string))
    (classification_method : option string) (break_count : option Z)
    : M (map_ref * layer_ref) :=
  let classification_method :=
    default default_classification_method classification_method in
  let break_count := default default_break_count break_count in
  '(m, layer, sym) ← prepare_symbology map_name layer_path layer_name
                       renderer color_map;
  sym ←
    (if String.eqb renderer "UniqueValueRenderer" then
       lift (unique_value_symbology variable_name label_map sym)
     else if String.eqb renderer "GraduatedColorsRenderer" then
       lift (graduated_colors_symbology variable_name classification_method
               break_count sym)
     else
       raise (ValueError ("Unsupported renderer: " +:+ renderer)));
  update_layer layer (set_lyr_symbology sym);;
  mret (m, layer).

(** *** The run of [create_single_map], read off its lines

    The map and the layer are new objects, so the state reached at each
    point of the body can be written down from the state at entry. *)

Definition is_basemap (heap : list Layer) (r : layer_ref) : bool :=
  match heap !! r with
  | Some l => isBasemapLayer l
  | None => false
  end.

(** The project once [createMap] has returned *)
Definition created_state (map_name : string) (s : Project) : Project :=
  let ls := host_new_map_layers map_name in
  let m :=
    {| mp_name := map_name;
       map_layers := seq (length (prj_layers s)) (length ls) |} in
  set_prj_maps (prj_maps s ++ [m]) (set_prj_layers (prj_layers s ++ ls) s).

(** The reference [addDataFromPath] returns *)
Definition new_layer_ref (map_name : string) (s : Project) : layer_ref :=
  (length (prj_layers s) + length (host_new_map_layers map_name))%nat.

(** The project once the basemap loop is over: the dataset [l0] is loaded
    and renamed, the basemap layers are out of the map. *)
Definition loaded_state (map_name layer_name : string) (l0 : Layer)
    (s : Project) : Project :=
  let ls := host_new_map_layers map_name in
  let heap := (prj_layers s ++ ls) ++ [set_lyr_name layer_name l0] in
  let refs :=
    new_layer_ref map_name s :: seq (length (prj_layers s)) (length ls) in
  let m :=
    {| mp_name := map_name;
       map_layers := filter (λ r, is_basemap heap r = false) refs |} in
  set_prj_maps (prj_maps s ++ [m]) (set_prj_layers heap s).

(** Lines 58 to 62 on the copy [sym] of the layer's symbology *)
Definition ramped_symbology (renderer color_map : string) (sym : Symbology)
    : result Symbology :=
  sym ← from_host (host_updateRenderer renderer sym);
  ramp ← index0 (host_listColorRamps color_map);
  Ok {| sym_renderer := set_colorRamp ramp (sym_renderer sym) |}.

(** Lines 58 to 83 on the copy [sym] of the layer's symbology *)
Definition style_symbology (renderer variable_name color_map : string)
    (label_map : option (gmap Z string))
    (classification_method : string) (break_count : Z) (sym : Symbology)
    : result Symbology :=
  sym ← from_host (host_updateRenderer renderer sym);
  ramp ← index0 (host_listColorRamps color_map);
  let sym := {| sym_renderer := set_colorRamp ramp (sym_renderer sym) |} in
  if String.eqb renderer "UniqueValueRenderer" then
    unique_value_symbology variable_name label_map sym
  else if String.eqb renderer "GraduatedColorsRenderer" then
    graduated_colors_symbology variable_name classification_method
      break_count sym
  else Err (ValueError ("Unsupported renderer: " +:+ renderer)).

(** The project once [layer.symbology = sym] is done *)
Definition styled_state (layer : layer_ref) (sym : Symbology) (t : Project)
    : Project :=
  match prj_layers t !! layer with
  | Some l => set_prj_layers (<[layer := set_lyr_symbology sym l]> (prj_layers t)) t
  | None => t
  end.

(** ** Host calls on layouts *)

(** [aprx.createLayout(width, height, units, name)]: an empty page. *)
Definition createLayout (width height : number) (units name : string)
    : M layout_ref :=
  s ← get_project;
  let lyt :=
    {| lyt_name := name; page_width := width; page_height := height;
       page_units := units; lyt_elements := [] |} in
  put_project (set_prj_layouts (prj_layouts s ++ [lyt]) s);;
  mret (length (prj_layouts s)).

(** [layout.getDefinition("V3")]: a copy of the definition. *)
Definition layout_getDefinition (layout : layout_ref) : M Layout :=
  deref "layout" prj_layouts layout.

(** [layout.setDefinition(cim)] *)
Definition layout_setDefinition (layout : layout_ref) (cim : Layout) : M unit :=
  _ ← deref "layout" prj_layouts layout;
  s ← get_project;
  put_project (set_prj_layouts (<[layout := cim]> (prj_layouts s)) s).

(** A new element is added at the end of the layout. *)
Definition add_element (layout : layout_ref) (elm : CIMElement) : M element_ref :=
  lyt ← deref "layout" prj_layouts layout;
  layout_setDefinition layout
    (set_lyt_elements (lyt_elements lyt ++ [elm]) lyt);;
  mret (layout, length (lyt_elements lyt)).

(** [elm.getDefinition("V3")] *)
Definition element_getDefinition (e : element_ref) : M CIMElement :=
  lyt ← deref "layout" prj_layouts e.1;
  match lyt_elements lyt !! e.2 with
  | Some elm => mret elm
  | None => raise (HostError "stale element")
  end.

(** [elm.setDefinition(cim)] *)
Definition element_setDefinition (e : element_ref) (cim : CIMElement) : M unit :=
  lyt ← deref "layout" prj_layouts e.1;
  layout_setDefinition e.1
    (set_lyt_elements (<[e.2 := cim]> (lyt_elements lyt)) lyt).

(** An assignment to an attribute of an element; [f] fails where the
    element has no such attribute. *)
Definition update_element (e : element_ref) (f : CIMElement → result CIMElement)
    : M unit :=
  elm ← element_getDefinition e;
  elm ← lift (f elm);
  element_setDefinition e elm.

(** [layout.createMapFrame(extent, map)] *)
Definition createMapFrame (layout : layout_ref) (extent : Extent)
    (map_obj : map_ref) : M element_ref :=
  add_element layout
    (CIMMapFrame extent map_obj host_default_graphicFrame None).

(** [mf.getLayerExtent(layer)] *)
Definition getLayerExtent (mf : element_ref) (layer : layer_ref) : M Extent :=
  l ← deref "layer" prj_layers layer;
  lift (from_host (host_getLayerExtent l)).

(** [mf.camera.setExtent(ext)] *)
Definition camera_setExtent (mf : element_ref) (ext : Extent) : M unit :=
  update_element mf (λ elm,
    match elm with
    | CIMMapFrame frame view gf _ => Ok (CIMMapFrame frame view gf (Some ext))
    | _ => Err (AttributeError "object has no attribute 'camera'")
    end).

(** [aprx.createTextElement(layout, point, geometry, text, size, style_item)] *)
Definition createTextElement (layout : layout_ref) (anchor : Point)
    (geometry text : string) (size : Z) (style_item : StyleItem)
    : M element_ref :=
  let '(placement, font) := host_text_defaults style_item in
  add_element layout
    (CIMTextGraphic anchor geometry text size style_item placement font).

(** [title.setAnchor(placement)] *)
Definition setAnchor (e : element_ref) (placement : string) : M unit :=
  update_element e (λ elm,
    match elm with
    | CIMTextGraphic a g t sz st _ font =>
        Ok (CIMTextGraphic a g t sz st placement font)
    | _ => Err (AttributeError "object has no attribute 'setAnchor'")
    end).

(** [title.fontFamilyName = font] *)
Definition set_fontFamilyName (e : element_ref) (font : string) : M unit :=
  update_element e (λ elm,
    match elm with
    | CIMTextGraphic a g t sz st placement _ =>
        Ok (CIMTextGraphic a g t sz st placement font)
    | _ => Err (AttributeError "object has no attribute 'fontFamilyName'")
    end).

(** [layout.createMapSurroundElement(point, kind, mf, style)] *)
Definition createMapSurroundElement (layout : layout_ref) (anchor : Point)
    (kind : string) (mf : element_ref) (style_item : StyleItem)
    : M element_ref :=
  if String.eqb kind "LEGEND" then
    frame ← element_getDefinition mf;
    match frame with
    | CIMMapFrame _ view _ _ =>
        mp ← deref "map" prj_maps view;
        add_element layout
          (CIMLegend anchor mf.2 style_item None None
             (host_legend_items style_item (map_layers mp)))
    | _ => raise (HostError "not a map frame")
    end
  else if String.eqb kind "SCALE_BAR" then
    add_element layout (CIMScaleLine anchor mf.2 style_item)
  else if String.eqb kind "NORTH_ARROW" then
    add_element layout (CIMMarkerNorthArrow anchor mf.2 style_item)
  else raise (HostError "unknown map surround type").

(** [legend.elementWidth = w] and [legend.elementHeight = h] *)
Definition set_elementWidth (e : element_ref) (w : number) : M unit :=
  update_element e (λ elm,
    match elm with
    | CIMLegend a fr st _ h its => Ok (CIMLegend a fr st (Some w) h its)
    | _ => Err (AttributeError "object has no attribute 'elementWidth'")
    end).

Definition set_elementHeight (e : element_ref) (h : number) : M unit :=
  update_element e (λ elm,
    match elm with
    | CIMLegend a fr st w _ its => Ok (CIMLegend a fr st w (Some h) its)
    | _ => Err (AttributeError "object has no attribute 'elementHeight'")
    end).

(** ** [create_standard_layout] *)

(** One turn of the border loop:
    [if type(elm).__name__ == "CIMMapFrame": elm.graphicFrame.borderSymbol = None] *)
Definition remove_border (elm : CIMElement) : CIMElement :=
  if String.eqb (type_name elm) "CIMMapFrame" then
    match elm with
    | CIMMapFrame frame view gf camera =>
        CIMMapFrame frame view
          {| borderSymbol := None; backgroundSymbol := backgroundSymbol gf |}
          camera
    | _ => elm
    end
  else elm.

(** [for elm in lyt_cim.elements: ...] *)
Definition remove_borders (lyt_cim : Layout) : Layout :=
  set_lyt_elements (remove_border <$> lyt_elements lyt_cim) lyt_cim.

(** One turn of the legend loop:
    [item.showLayerName = False; item.showHeading = False] *)
Definition hide_names (item : CIMLegendItem) : CIMLegendItem :=
  {| legend_layer := legend_layer item;
     showLayerName := false; showHeading := false |}.

(** [for item in leg_cim.items: ...]; only a legend has [items]. *)
Definition hide_item_names (leg_cim : CIMElement) : result CIMElement :=
  match leg_cim with
  | CIMLegend a fr st w h its => Ok (CIMLegend a fr st w h (hide_names <$> its))
  | _ => Err (AttributeError "object has no attribute 'items'")
  end.

(** The defaults of the optional parameters *)
Definition default_mapframe_extent : Extent :=
  {| XMin := 0.885%Q; YMin := 0.665%Q; XMax := 7.385%Q; YMax := 5.165%Q |}.
Definition default_title_position : number * number := (4.1215, 5.539)%Q.
Definition default_legend_position : number * number := (0.1464, 2.2927)%Q.
Definition default_legend_size : number * number := (1.2357, 1.7131)%Q.
Definition default_scalebar_position : number * number := (2.7713, 0.2371)%Q.
Definition default_north_arrow_position : number * number := (7.2704, 4.8844)%Q.

(** [arcpy.Point] called on the unpacked position tuple *)
Definition point_of (position : number * number) : Point :=
  {| pt_X := position.1; pt_Y := position.2 |}.

Definition create_standard_layout
    (map_obj : map_ref) (layer : layer_ref) (layout_name title_text : string)
    (mapframe_extent : option Extent)
    (title_position legend_position legend_size scalebar_position
       north_arrow_position : option (number * number))
    : M layout_ref :=
  let title_position := default default_title_position title_position in
  let legend_position := default default_legend_position legend_position in
  let legend_size := default default_legend_size legend_size in
  let scalebar_position := default default_scalebar_position scalebar_position in
  let north_arrow_position :=
    default default_north_arrow_position north_arrow_position in
  layout ← createLayout 8.27%Q 5.83%Q "INCH" layout_name;
  let mapframe_extent :=
    match mapframe_extent with
    | None => default_mapframe_extent
    | Some e => e
    end in
  mf ← createMapFrame layout mapframe_extent map_obj;
  (* Remove map frame border *)
  lyt_cim ← layout_getDefinition layout;
  let lyt_cim := remove_borders lyt_cim in
  layout_setDefinition layout lyt_cim;;
  (* Zoom map frame to layer extent *)
  ext ← getLayerExtent mf layer;
  camera_setExtent mf ext;;
  (* Title element *)
  txt_style ← lift (index0 (host_listStyleItems "ArcGIS 2D" "TEXT" "Title (Serif)"));
  title ← createTextElement layout (point_of title_position) "POINT"
            title_text 20 txt_style;
  setAnchor title "Center_Point";;
  set_fontFamilyName title "Garamond";;
  (* Legend *)
  legend_style ← lift (index0 (host_listStyleItems "ArcGIS 2D" "LEGEND" "Legend 1"));
  legend ← createMapSurroundElement layout (point_of legend_position)
             "LEGEND" mf legend_style;
  set_elementWidth legend legend_size.1;;
  set_elementHeight legend legend_size.2;;
  leg_cim ← element_getDefinition legend;
  leg_cim ← lift (hide_item_names leg_cim);
  element_setDefinition legend leg_cim;;
  (* Scale bar *)
  scalebar_style ←
    lift (index0 (host_listStyleItems "ArcGIS 2D" "SCALE_BAR" "Scale Line 1 Metric"));
  createMapSurroundElement layout (point_of scalebar_position)
    "SCALE_BAR" mf scalebar_style;;
  (* North arrow *)
  north_arrow_style ←
    lift (index0 (host_listStyleItems "ArcGIS 2D" "NORTH_ARROW" "ArcGIS North 1"));
  createMapSurroundElement layout (point_of north_arrow_position)
    "NORTH_ARROW" mf north_arrow_style;;
  mret layout.

End Script.

(** ** A sample host session

    A small engine to run the script on: [int] reads ASCII text, a new map
    starts with two basemap layers, one shapefile can be opened, five
    renderer names and two colour ramps are known, and assigning [fields]
    lists the values of the field in the order the rows are stored. *)
Module Sample.

Definition is_space (c : ascii) : bool :=
  let n := N_of_ascii c in
  ((9 <=? n) && (n <=? 13) || (n =? 32))%N.

Definition digit_value (c : ascii) : option Z :=
  let n := N_of_ascii c in
  if ((48 <=? n) && (n <=? 57))%N then Some (Z.of_N n - 48) else None.

Fixpoint skip_spaces (s : string) : string :=
  match s with
  | String c r => if is_space c then skip_spaces r else s
  | EmptyString => s
  end.

(** Digits after a first digit, single underscores allowed between two
    digits; returns the number read and the unread rest. *)
Fixpoint scan_digits (acc : Z) (s : string) : option (Z * string) :=
  match s with
  | String c r =>
      match digit_value c with
      | Some d => scan_digits (10 * acc + d) r
      | None =>
          if Ascii.eqb c "_" then
            match r with
            | String c' r' =>
                match digit_value c' with
                | Some d => scan_digits (10 * acc + d) r'
                | None => None
                end
            | EmptyString => None
            end
          else Some (acc, s)
      end
  | EmptyString => Some (acc, s)
  end.

Definition scan_number (s : string) : option (Z * string) :=
  match s with
  | String c r =>
      match digit_value c with
      | Some d => scan_digits d r
      | None => None
      end
  | EmptyString => None
  end.

(** Decimal text in ASCII: optional blanks, an optional sign, digits,
    optional blanks. *)
Definition read_decimal (s : string) : option Z :=
  let s := skip_spaces s in
  let '(neg, s) :=
    match s with
    | String "-" r => (true, r)
    | String "+" r => (false, r)
    | _ => (false, s)
    end in
  match scan_number s with
  | Some (n, rest) =>
      match skip_spaces rest with
      | EmptyString => Some (if neg then - n else n)
      | _ => None
      end
  | None => None
  end.

(** The number of digit characters of a text *)
Fixpoint count_digits (s : string) : nat :=
  match s with
  | String c r =>
      match digit_value c with
      | Some _ => S (count_digits r)
      | None => count_digits r
      end
  | EmptyString => 0%nat
  end.

(** The [int] of the session: it reads decimal text in ASCII of at most
    4300 digits, and answers with a [ValueError] on anything else. *)
Definition read_int (s : string) : int_reply :=
  match read_decimal s with
  | Some z =>
      if (4300 <? count_digits s)%nat then
        IntError
          ("Exceeds the limit (4300 digits) for integer string conversion: " +:+
           "value has " +:+ pretty (count_digits s) +:+ " digits; " +:+
           "use sys.set_int_max_str_digits() to increase the limit")
      else IntValue z
  | None =>
      IntError ("invalid literal for int() with base 10: '" +:+ s +:+ "'")
  end.

Definition blank_renderer : Renderer :=
  {| rnd_type := "SimpleRenderer"; colorRamp := None; rnd_fields := [];
     rnd_groups := []; classificationField := ""; classificationMethod := "";
     breakCount := 0 |}.

Definition basemap (name : string) : Layer :=
  {| lyr_name := name; isBasemapLayer := true;
     lyr_symbology := {| sym_renderer := blank_renderer |} |}.

Definition districts : Layer :=
  {| lyr_name := "districts.shp"; isBasemapLayer := false;
     lyr_symbology := {| sym_renderer := blank_renderer |} |}.

Definition item_of (v : string) : Item :=
  {| item_values := [[PStr v]]; item_label := v |}.

Definition known_renderers : list string :=
  ["SimpleRenderer"; "UniqueValueRenderer"; "GraduatedColorsRenderer";
   "GraduatedSymbolsRenderer"; "UnclassedColorsRenderer"].

Definition set_rnd_type (t : string) (r : Renderer) : Renderer :=
  {| rnd_type := t; colorRamp := colorRamp r; rnd_fields := rnd_fields r;
     rnd_groups := rnd_groups r;
     classificationField := classificationField r;
     classificationMethod := classificationMethod r;
     breakCount := breakCount r |}.

Definition set_rnd_fields (fs : list string) (r : Renderer) : Renderer :=
  {| rnd_type := rnd_type r; colorRamp := colorRamp r; rnd_fields := fs;
     rnd_groups := rnd_groups r;
     classificationField := classificationField r;
     classificationMethod := classificationMethod r;
     breakCount := breakCount r |}.

(** The groups listed for a field: [zone_id] holds numbers, [landuse]
    holds names, [ward] is shown in two groups. *)
Definition groups_of (fs : list string) : list ItemGroup :=
  if decide (fs = ["zone_id"]) then
    [{| grp_heading := "zone_id";
        grp_items := [item_of "3"; item_of "1"; item_of "2"] |}]
  else if decide (fs = ["landuse"]) then
    [{| grp_heading := "landuse";
        grp_items := [item_of "Commercial"; item_of "Residential"] |}]
  else if decide (fs = ["ward"]) then
    [{| grp_heading := "north"; grp_items := [item_of "2"; item_of "1"] |};
     {| grp_heading := "south"; grp_items := [item_of "4"; item_of "3"] |}]
  else [].

Definition engine : Engine :=
  {| python_int := read_int;
     python_max_str_digits := 4300;
     host_new_map_layers := λ _,
       [basemap "World Topographic Map"; basemap "World Hillshade"];
     host_open_dataset := λ path,
       if String.eqb path "data/districts.shp" then Done districts
       else Failed "cannot open dataset";
     host_updateRenderer := λ name sym,
       if decide (name ∈ known_renderers) then
         Done {| sym_renderer := set_rnd_type name (sym_renderer sym) |}
       else Failed "unknown renderer";
     host_listColorRamps := λ wildcard,
       filter (λ r, ramp_name r = wildcard)
         [{| ramp_name := "Viridis" |}; {| ramp_name := "Cyan to Purple" |}];
     host_set_fields := λ fs r,
       Done (set_rnd_groups (groups_of fs) (set_rnd_fields fs r));
     host_reclassify := λ r, Done r;
     host_default_graphicFrame :=
       {| borderSymbol := Some "Black Outline (1 pt)";
          backgroundSymbol := Some "White" |};
     host_getLayerExtent := λ _,
       Done {| XMin := 0%Q; YMin := 0%Q; XMax := 100%Q; YMax := 80%Q |};
     host_listStyleItems := λ style class wildcard,
       if String.eqb style "ArcGIS 2D" then
         [{| style_class := class; style_name := wildcard |}]
       else [];
     host_text_defaults := λ st, ("BOTTOM_LEFT_CORNER", "Tahoma");
     host_legend_items := λ _ refs,
       (λ r, {| legend_layer := r; showLayerName := true;
                showHeading := true |}) <$> refs |}.

Definition empty_project : Project :=
  {| prj_maps := []; prj_layers := []; prj_layouts := [] |}.

Definition zone_labels : gmap Z string :=
  {[ 1 := "Low"; 2 := "Medium" ]}.

(** Runs of the script in this session, each on the empty project *)
Definition single_map (renderer variable_name color_map : string)
    (label_map : option (gmap Z string)) : result (map_ref * layer_ref) * Project :=
  create_single_map (H:=engine) "Districts" "data/districts.shp" "Districts"
    renderer variable_name color_map label_map None None empty_project.

Definition zone_run := single_map "UniqueValueRenderer" "zone_id" "Viridis"
                         (Some zone_labels).
Definition ward_run := single_map "UniqueValueRenderer" "ward" "Viridis"
                         (Some zone_labels).
Definition landuse_run := single_map "UniqueValueRenderer" "landuse" "Viridis"
                            None.
Definition unlabelled_run := single_map "UniqueValueRenderer" "zone_id"
                               "Viridis" None.
Definition simple_run := single_map "SimpleRenderer" "zone_id" "Viridis" None.
Definition no_ramp_run := single_map "SimpleRenderer" "zone_id" "Magma" None.

Definition layout_run : result layout_ref * Project :=
  create_standard_layout (H:=engine) 0%nat 2%nat "Zones" "Zones by district"
    None None None None None None zone_run.2.

End Sample.

(** ** Notions used in the statements *)

(** [a] does not come after [b]: [b < a] is false in Python. *)
Definition key_le (a b : pyval) : Prop := py_lt b a = Ok false.

Definition keyed_le {A} (p q : pyval * A) : Prop := key_le p.1 q.1.

(** Ascending order of items by their first value *)
Definition first_value_le (a b : Item) : Prop :=
  ∃ ka kb,
    first_value a = Ok ka ∧ first_value b = Ok kb ∧ py_lt kb ka = Ok false.

(** [b] is [a] relabelled: the same values, and as label the entry of the
    mapping for the integer that the first value of [a] stands for, or
    else the decimal string of that integer. *)
Definition relabelled `{Engine} (label_map : option (gmap Z string))
    (a b : Item) : Prop :=
  ∃ d v val,
    label_map = Some d ∧ first_value a = Ok v ∧ py_int v = Ok val ∧
    item_values b = item_values a ∧
    item_label b =
      match d !! val with
      | Some lbl => lbl
      | None => pretty val
      end.

(** The project [s] with one more layout, [lyt], the newest one *)
Definition on_page (s : Project) (lyt : Layout) : Project :=
  set_prj_layouts (prj_layouts s ++ [lyt]) s.

(** ** More notions for the statements *)

(** [item] has [k] as its first value. *)
Definition has_first_value (k : pyval) (item : Item) : Prop :=
  first_value item = Ok k.

#[global] Instance has_first_value_dec k item :
  Decision (has_first_value k item).
Proof.
  unfold has_first_value. destruct (first_value item) as [k'|e].
  - destruct (decide (k' = k)) as [->|Hne]; [by left|right; congruence].
  - by right.
Defined.

(** Two values that [<] can compare: both integers or both strings. *)
Definition same_kind (a b : pyval) : Prop :=
  match a, b with
  | PInt _, PInt _ | PStr _, PStr _ => True
  | _, _ => False
  end.

(** A keyed list whose keys are all of one kind *)
Definition one_kind {A} (l : list (pyval * A)) : Prop :=
  ∀ p q, p ∈ l → q ∈ l → same_kind p.1 q.1.

(** The first value of [item] is a string that [int] accepts, as the host
    lists the values of a numeric field, and [str] can print the integer
    read. *)
Definition integer_text `{Engine} (item : Item) : Prop :=
  ∃ str z text,
    first_value item = Ok (PStr str) ∧ python_int str = IntValue z ∧
    py_str z = Ok text.

(** ** More of the sample session *)
Module Trial.

(** A host without styles whose renderers start with one empty group *)
Definition bare_engine : Engine :=
  {| python_int := python_int (Engine:=Sample.engine);
     python_max_str_digits := python_max_str_digits (Engine:=Sample.engine);
     host_new_map_layers := host_new_map_layers (Engine:=Sample.engine);
     host_open_dataset := host_open_dataset (Engine:=Sample.engine);
     host_updateRenderer := host_updateRenderer (Engine:=Sample.engine);
     host_listColorRamps := host_listColorRamps (Engine:=Sample.engine);
     host_set_fields := λ fs r,
       Done (set_rnd_groups [{| grp_heading := "all"; grp_items := [] |}] r);
     host_reclassify := host_reclassify (Engine:=Sample.engine);
     host_default_graphicFrame :=
       host_default_graphicFrame (Engine:=Sample.engine);
     host_getLayerExtent := host_getLayerExtent (Engine:=Sample.engine);
     host_listStyleItems := λ _ _ _, [];
     host_text_defaults := host_text_defaults (Engine:=Sample.engine);
     host_legend_items := host_legend_items (Engine:=Sample.engine) |}.


Definition no_group_run :=
  Sample.single_map "UniqueValueRenderer" "height" "Viridis" None.

Definition missing_file_run : result (map_ref * layer_ref) * Project :=
  create_single_map (H:=Sample.engine) "Districts" "data/missing.shp"
    "Districts" "UniqueValueRenderer" "zone_id" "Viridis" None None None
    Sample.empty_project.

Definition empty_group_run : result (map_ref * layer_ref) * Project :=
  create_single_map (H:=bare_engine) "Districts" "data/districts.shp"
    "Districts" "UniqueValueRenderer" "zone_id" "Viridis" None None None
    Sample.empty_project.

Definition labelled (v : pyval) (lbl : string) : Item :=
  {| item_values := [[v]]; item_label := lbl |}.

Definition tied_items : list Item :=
  [labelled (PStr "b") "first"; labelled (PStr "a") "other";
   labelled (PStr "b") "second"].

Definition mixed_items : list Item :=
  [labelled (PInt 1) "one"; labelled (PStr "a") "a"].

End Trial.

(** * Properties *)

(** ** Results, the monad, lists *)

Lemma Ok_bind {A B} (a : A) (f : A → result B) : Ok a ≫= f = f a.
Proof. reflexivity. Qed.

Lemma bind_Ok_inv {A B} (r : result A) (f : A → result B) (b : B) :
  r ≫= f = Ok b → ∃ a, r = Ok a ∧ f a = Ok b.
Proof. destruct r as [a|e]; [by exists a|done]. Qed.

Lemma fmap_Ok_inv {A B} (f : A → B) (r : result A) (b : B) :
  f <$> r = Ok b → ∃ a, r = Ok a ∧ b = f a.
Proof. destruct r as [a|e]; [|done]. intros [= <-]. by exists a. Qed.

Lemma from_host_Ok_inv {A} (r : host_reply A) (a : A) :
  from_host r = Ok a → r = Done a.
Proof. destruct r; [by intros [= ->]|done]. Qed.

Lemma bind_run {A B} (m : M A) (f : A → M B) (s : Project) :
  (m ≫= f) s =
  match m s with
  | (Ok a, s') => f a s'
  | (Err e, s') => (Err e, s')
  end.
Proof. reflexivity. Qed.

Lemma deref_run {A} what (heap : Project → list A) (r : nat) (a : A)
    (s : Project) :
  heap s !! r = Some a → deref what heap r s = (Ok a, s).
Proof. intros Hr. unfold deref. by rewrite Hr. Qed.

Lemma snoc_lookup {A} (l : list A) (x : A) : (l ++ [x]) !! length l = Some x.
Proof. by rewrite lookup_app_r, Nat.sub_diag. Qed.

Lemma snoc_insert {A} (l : list A) (x y : A) :
  <[length l := y]> (l ++ [x]) = l ++ [y].
Proof. by rewrite insert_app_r_alt, Nat.sub_diag. Qed.

Lemma filter_all {A} (P : A → Prop) `{∀ x, Decision (P x)} (l : list A) :
  (∀ x, P x) → filter P l = l.
Proof.
  intros HP. induction l as [|x l IH]; [done|].
  rewrite filter_cons_True by done. by rewrite IH.
Qed.

Lemma filter_iff_in {A} (P Q : A → Prop) `{∀ x, Decision (P x)}
    `{∀ x, Decision (Q x)} (l : list A) :
  (∀ x, x ∈ l → P x ↔ Q x) → filter P l = filter Q l.
Proof.
  induction l as [|x l IH]; intros HPQ; [done|].
  rewrite !filter_cons.
  rewrite IH by (intros y Hy; apply HPQ; by right).
  destruct (decide (P x)) as [HP|HP], (decide (Q x)) as [HQ|HQ]; try done;
    exfalso;
    apply (HPQ x ltac:(left)) in HP || apply (HPQ x ltac:(left)) in HQ; done.
Qed.

(** ** Python's [<] and the sort *)

Lemma py_lt_asym (a b : pyval) : py_lt a b = Ok true → py_lt b a = Ok false.
Proof.
  destruct a as [x|s], b as [y|t]; simpl; try done.
  - intros [= Hlt]. f_equal. lia.
  - intros [= Hlt]. f_equal.
    destruct (String_as_OT.compare s t) eqn:Hst; try done.
    destruct (String_as_OT.compare_spec t s) as [Heq|Hts|Hts]; try done.
    exfalso. eapply (StrictOrder_Irreflexive (R:=String_as_OT.lt)).
    etrans; [exact Hst|exact Hts].
Qed.

Lemma key_le_trans (a b c : pyval) : key_le a b → key_le b c → key_le a c.
Proof.
  unfold key_le. destruct a as [x|s], b as [y|t], c as [z|u]; simpl; try done.
  - intros [= Hab] [= Hbc]. f_equal. lia.
  - intros [= Hab] [= Hbc]. f_equal.
    destruct (String_as_OT.compare u s) eqn:Hus; try done. exfalso.
    destruct (String_as_OT.compare_spec t s) as [Heq|Hts|Hts]; try done.
    + unfold String_as_OT.eq in Heq. subst t. by rewrite Hus in Hbc.
    + assert (String_as_OT.lt u t) as Hut by (etrans; [exact Hus|exact Hts]).
      unfold String_as_OT.lt in Hut. by rewrite Hut in Hbc.
Qed.

Section Sorting.
Context {A : Type}.
Implicit Types (l : list (pyval * A)) (kx : pyval * A).

Lemma insert_keyed_Permutation kx l l' :
  insert_keyed kx l = Ok l' → Permutation (kx :: l) l'.
Proof.
  revert l'. induction l as [|ky r IH]; intros l'; simpl.
  - by intros [= <-].
  - intros (b & Hb & Hins)%bind_Ok_inv. destruct b.
    + apply fmap_Ok_inv in Hins as (r' & Hr' & ->).
      rewrite perm_swap. constructor. by apply IH.
    + by injection Hins as <-.
Qed.

Lemma insert_keyed_head kx l l' (p : pyval * A) :
  insert_keyed kx l = Ok l' → keyed_le p kx → HdRel keyed_le p l →
  HdRel keyed_le p l'.
Proof.
  destruct l as [|ky r]; simpl.
  - intros [= <-] Hp _. by constructor.
  - intros (b & Hb & Hins)%bind_Ok_inv Hp Hhd. destruct b.
    + apply fmap_Ok_inv in Hins as (r' & Hr' & ->).
      constructor. by inversion Hhd.
    + injection Hins as <-. by constructor.
Qed.

Lemma insert_keyed_Sorted kx l l' :
  insert_keyed kx l = Ok l' → Sorted keyed_le l → Sorted keyed_le l'.
Proof.
  revert l'. induction l as [|ky r IH]; intros l'; simpl.
  - intros [= <-] _. by repeat constructor.
  - intros (b & Hb & Hins)%bind_Ok_inv Hs.
    apply Sorted_inv in Hs as [Hs Hhd]. destruct b.
    + apply fmap_Ok_inv in Hins as (r' & Hr' & ->).
      constructor; [by apply IH|].
      eapply insert_keyed_head; [done| |done].
      by apply py_lt_asym.
    + injection Hins as <-. constructor; [by constructor|]. by constructor.
Qed.

Lemma sort_keyed_Permutation l l' : sort_keyed l = Ok l' → Permutation l l'.
Proof.
  revert l'. induction l as [|kx r IH]; intros l'; simpl.
  - by intros [= <-].
  - intros (r' & Hr' & Hins)%bind_Ok_inv.
    rewrite (IH _ Hr'). by apply insert_keyed_Permutation.
Qed.

Lemma sort_keyed_Sorted l l' : sort_keyed l = Ok l' → Sorted keyed_le l'.
Proof.
  revert l'. induction l as [|kx r IH]; intros l'; simpl.
  - intros [= <-]. constructor.
  - intros (r' & Hr' & Hins)%bind_Ok_inv.
    eapply insert_keyed_Sorted; [done|]. by apply IH.
Qed.

Lemma with_keys_Ok (key : A → result pyval) (xs : list A) kl :
  with_keys key xs = Ok kl →
  kl.*2 = xs ∧ Forall (λ p, key p.2 = Ok p.1) kl.
Proof.
  revert kl. induction xs as [|x r IH]; intros kl; simpl.
  - intros [= <-]. by split.
  - intros (k & Hk & (kr & Hkr & [= <-])%bind_Ok_inv)%bind_Ok_inv.
    destruct (IH _ Hkr) as [<- Hall]. split; [done|]. by constructor.
Qed.

End Sorting.

(** ** Sorting and relabelling the items *)

Lemma first_value_le_trans : Relations_1.Transitive first_value_le.
Proof.
  intros a b c (ka & kb & Ha & Hb & Hab) (kb' & kc & Hb' & Hc & Hbc).
  rewrite Hb in Hb'. injection Hb' as <-.
  exists ka, kc. repeat split; try done. by apply (key_le_trans ka kb kc).
Qed.

Lemma keyed_Sorted_items (kl : list (pyval * Item)) :
  Forall (λ p, first_value p.2 = Ok p.1) kl →
  Sorted keyed_le kl → Sorted first_value_le (kl.*2).
Proof.
  intros Hkeys Hs. induction Hs as [|p l Hs IH Hhd]; [constructor|].
  apply Forall_cons in Hkeys as [Hp Hl]. simpl.
  constructor; [by apply IH|].
  destruct Hhd as [|q l Hpq]; [constructor|].
  apply Forall_cons in Hl as [Hq _]. constructor. by exists p.1, q.1.
Qed.

Lemma list_sort_spec (items items' : list Item) :
  list_sort first_value items = Ok items' →
  Permutation items items' ∧ StronglySorted first_value_le items'.
Proof.
  unfold list_sort.
  intros (kl & Hkl & (sorted & Hsorted & [= <-])%bind_Ok_inv)%bind_Ok_inv.
  apply with_keys_Ok in Hkl as [<- Hkeys].
  pose proof (sort_keyed_Permutation _ _ Hsorted) as Hperm.
  split; [by apply fmap_Permutation|].
  apply Sorted_StronglySorted; [apply first_value_le_trans|].
  apply keyed_Sorted_items; [|by eapply sort_keyed_Sorted].
  by rewrite <- Hperm.
Qed.

Section Relabelling.
Context `{Engine}.

Lemma py_str_Ok (z : Z) (text : string) : py_str z = Ok text → text = pretty z.
Proof. unfold py_str. destruct (_ && _); [done|]. by intros [= <-]. Qed.

Lemma relabel_item_spec label_map (item item' : Item) :
  relabel_item label_map item = Ok item' → relabelled label_map item item'.
Proof.
  unfold relabel_item.
  intros (v & Hv & (val & Hval & (d & Hd & (text & Htext & [= <-])%bind_Ok_inv
          )%bind_Ok_inv)%bind_Ok_inv)%bind_Ok_inv.
  destruct label_map as [d'|]; [|done]. injection Hd as ->.
  apply py_str_Ok in Htext as ->.
  exists d, v, val. by repeat split.
Qed.

Lemma relabel_spec label_map (items items' : list Item) :
  relabel label_map items = Ok items' →
  Forall2 (relabelled label_map) items items'.
Proof.
  revert items'. induction items as [|item rest IH]; intros items'; simpl.
  - intros [= <-]. constructor.
  - intros (item' & Hitem & (rest' & Hrest & [= <-])%bind_Ok_inv)%bind_Ok_inv.
    constructor; [by apply relabel_item_spec|by apply IH].
Qed.

Lemma relabelled_values label_map (a b : Item) :
  relabelled label_map a b → item_values b = item_values a.
Proof. by intros (d & v & val & _ & _ & _ & Hvalues & _). Qed.

End Relabelling.

Lemma first_value_le_values (a a' b b' : Item) :
  item_values a' = item_values a → item_values b' = item_values b →
  first_value_le a b → first_value_le a' b'.
Proof.
  intros Ha Hb (ka & kb & Hka & Hkb & Hle). exists ka, kb.
  unfold first_value in *. by rewrite Ha, Hb.
Qed.

Lemma StronglySorted_same_values (l l' : list Item) :
  Forall2 (λ a b, item_values b = item_values a) l l' →
  StronglySorted first_value_le l → StronglySorted first_value_le l'.
Proof.
  induction 1 as [|a b l l' Hab Hl IH]; [done|].
  intros [Hs Hall]%StronglySorted_inv. constructor; [by apply IH|].
  clear IH Hs. induction Hl as [|c d l l' Hcd Hl IH]; [constructor|].
  apply Forall_cons in Hall as [Hac Hall]. constructor; [|by apply IH].
  by eapply first_value_le_values.
Qed.

(** ** The run of [create_single_map] *)

Section MapRun.
Context `{Engine}.

Lemma remove_basemaps_run (m : map_ref) (lyrs : list layer_ref) :
  ∀ (t : Project) (mp : Map),
    prj_maps t !! m = Some mp →
    Forall (λ r, is_Some (prj_layers t !! r)) lyrs →
    for_each lyrs (λ lyr,
      l ← deref "layer" prj_layers lyr;
      if isBasemapLayer l then removeLayer m lyr else mret ()) t =
    (Ok (),
     set_prj_maps
       (<[m := set_map_layers
                 (filter (λ r, r ∈ lyrs → is_basemap (prj_layers t) r = false)
                    (map_layers mp)) mp]> (prj_maps t)) t).
Proof.
  induction lyrs as [|x rest IH]; intros t mp Hm Hrefs.
  - simpl. f_equal. destruct t as [ms ls lo]; simpl in *. unfold set_prj_maps; simpl. f_equal.
    rewrite filter_all.
    + destruct mp; simpl. by rewrite list_insert_id.
    + intros r Hr. by apply elem_of_nil in Hr.
  - apply Forall_cons in Hrefs as [[l Hl] Hrest].
    simpl. rewrite !bind_run, (deref_run _ _ _ l) by done.
    destruct (isBasemapLayer l) eqn:Hb.
    + unfold removeLayer. rewrite bind_run, (deref_run _ _ _ mp) by done.
      simpl. 
      rewrite (IH _ (set_map_layers (filter (λ r, r ≠ x) (map_layers mp)) mp)); simpl.
      * f_equal. unfold set_prj_maps; simpl. f_equal.
        rewrite list_insert_insert_eq. f_equal. unfold set_map_layers; simpl. f_equal.
        rewrite list_filter_filter. apply list_filter_iff. intros r.
        unfold is_basemap. split.
        -- intros [Hr Hne] [->|Hin]%elem_of_cons; [done|auto].
        -- intros Hr. split.
           ++ intros Hin. apply Hr. by right.
           ++ intros ->. specialize (Hr ltac:(left)). rewrite Hl in Hr. congruence.
      * apply list_lookup_insert_eq. by eapply lookup_lt_Some.
      * done.
    + simpl. rewrite (IH _ mp) by done. f_equal. f_equal. f_equal. f_equal.
      apply list_filter_iff. intros r. unfold is_basemap. split.
      * intros Hr [->|Hin]%elem_of_cons; [by rewrite Hl|auto].
      * intros Hr Hin. apply Hr. by right.
Qed.

Lemma addDataFromPath_run m path t mp l0 :
  host_open_dataset path = Done l0 →
  prj_maps t !! m = Some mp →
  addDataFromPath m path t =
  (Ok (length (prj_layers t)),
   set_prj_maps
     (<[m := set_map_layers (length (prj_layers t) :: map_layers mp) mp]>
        (prj_maps t))
     (set_prj_layers (prj_layers t ++ [l0]) t)).
Proof.
  intros Hl Hm. unfold addDataFromPath. rewrite bind_run. unfold lift.
  rewrite Hl. simpl from_host. cbv beta iota.
  by rewrite bind_run, (deref_run _ _ _ mp).
Qed.

Lemma update_layer_run layer f t l :
  prj_layers t !! layer = Some l →
  update_layer layer f t =
  (Ok (), set_prj_layers (<[layer := f l]> (prj_layers t)) t).
Proof.
  intros Hl. unfold update_layer. by rewrite bind_run, (deref_run _ _ _ l).
Qed.

Lemma listLayers_run m t mp :
  prj_maps t !! m = Some mp → listLayers m t = (Ok (map_layers mp), t).
Proof.
  intros Hm. unfold listLayers. by rewrite bind_run, (deref_run _ _ _ mp).
Qed.

Lemma prepare_symbology_run map_name layer_path layer_name renderer
    color_map s :
  prepare_symbology map_name layer_path layer_name renderer color_map s =
  match host_open_dataset layer_path with
  | Failed msg => (Err (HostError msg), created_state map_name s)
  | Done l0 =>
      let t := loaded_state map_name layer_name l0 s in
      match ramped_symbology renderer color_map (lyr_symbology l0) with
      | Err e => (Err e, t)
      | Ok sym =>
          (Ok (length (prj_maps s), new_layer_ref map_name s, sym), t)
      end
  end.
Proof.
  unfold prepare_symbology. rewrite bind_run.
  change (createMap map_name s)
    with (Ok (length (prj_maps s)), created_state map_name s).
  cbv beta iota. rewrite bind_run.
  destruct (host_open_dataset layer_path) as [l0|msg] eqn:Hopen.
  2:{ unfold addDataFromPath. rewrite bind_run. unfold lift. by rewrite Hopen. }
  erewrite addDataFromPath_run; [|done|apply snoc_lookup].
  cbv beta iota. simpl prj_layers. simpl prj_maps. rewrite snoc_insert.
  rewrite bind_run.
  erewrite update_layer_run; [|apply snoc_lookup].
  cbv beta iota. simpl prj_layers. rewrite snoc_insert.
  rewrite bind_run. erewrite listLayers_run; [|apply snoc_lookup].
  cbv beta iota. rewrite bind_run.
  erewrite (remove_basemaps_run (length (prj_maps s)));
    [|apply snoc_lookup|].
  2:{ simpl. apply Forall_cons. split.
      - rewrite snoc_lookup. by eexists.
      - apply Forall_forall. intros r [Hlo Hhi]%elem_of_seq.
        apply lookup_lt_is_Some. rewrite !length_app. simpl. lia. }
  cbv beta iota. rewrite bind_run.
  lazymatch goal with
  | |- context [deref _ _ _ ?t] =>
      assert (t = loaded_state map_name layer_name l0 s) as ->
  end.
  { unfold loaded_state, created_state, new_layer_ref, set_prj_maps,
      set_prj_layers, set_map_layers. simpl. rewrite snoc_insert, length_app.
    do 4 f_equal. apply filter_iff_in. intros r Hr. by split; [intros Hx; apply Hx|]. }
  assert (prj_layers (loaded_state map_name layer_name l0 s)
            !! new_layer_ref map_name s = Some (set_lyr_name layer_name l0))
    as Hlayer.
  { unfold loaded_state, new_layer_ref. simpl. rewrite <- length_app.
    apply snoc_lookup. }
  rewrite length_app. fold (new_layer_ref map_name s).
  rewrite (deref_run _ _ _ _ _ Hlayer).
  cbv beta iota. simpl lyr_symbology.
  unfold ramped_symbology.
  rewrite bind_run. unfold lift at 1.
  destruct (host_updateRenderer renderer (lyr_symbology l0)) as [sym1|msg];
    [|done].
  simpl from_host.
  cbv beta iota. rewrite bind_run. unfold lift at 1.
  by destruct (index0 (host_listColorRamps color_map)) as [ramp|e].
Qed.

Lemma create_single_map_run map_name layer_path layer_name renderer
    variable_name color_map label_map classification_method break_count s :
  create_single_map map_name layer_path layer_name renderer variable_name
    color_map label_map classification_method break_count s =
  match host_open_dataset layer_path with
  | Failed msg => (Err (HostError msg), created_state map_name s)
  | Done l0 =>
      let t := loaded_state map_name layer_name l0 s in
      match style_symbology renderer variable_name color_map label_map
              (default default_classification_method classification_method)
              (default default_break_count break_count) (lyr_symbology l0) with
      | Err e => (Err e, t)
      | Ok sym =>
          (Ok (length (prj_maps s), new_layer_ref map_name s),
           styled_state (new_layer_ref map_name s) sym t)
      end
  end.
Proof.
  unfold create_single_map. rewrite bind_run, prepare_symbology_run.
  destruct (host_open_dataset layer_path) as [l0|msg]; [|done].
  cbv zeta. unfold ramped_symbology, style_symbology.
  destruct (host_updateRenderer renderer (lyr_symbology l0)) as [sym1|msg];
    [|done].
  simpl from_host. rewrite !Ok_bind.
  destruct (index0 (host_listColorRamps color_map)) as [ramp|e]; [|done].
  rewrite !Ok_bind. cbv beta iota. rewrite bind_run.
  assert (prj_layers (loaded_state map_name layer_name l0 s)
            !! new_layer_ref map_name s = Some (set_lyr_name layer_name l0))
    as Hlayer.
  { unfold loaded_state, new_layer_ref. simpl. rewrite <- length_app.
    apply snoc_lookup. }
  assert (∀ r : result Symbology,
    (let (r0, s') := lift r (loaded_state map_name layer_name l0 s) in
     match r0 with
     | Ok a =>
         (update_layer (new_layer_ref map_name s) (set_lyr_symbology a)
          ≫= λ _, mret (length (prj_maps s), new_layer_ref map_name s)) s'
     | Err e => (Err e, s')
     end) =
    match r with
    | Ok sym =>
        (Ok (length (prj_maps s), new_layer_ref map_name s),
         styled_state (new_layer_ref map_name s) sym
           (loaded_state map_name layer_name l0 s))
    | Err e => (Err e, loaded_state map_name layer_name l0 s)
    end) as Hend.
  { intros [sym|e]; [|done]. unfold lift. rewrite bind_run.
    rewrite (update_layer_run _ _ _ _ Hlayer). unfold styled_state.
    by rewrite Hlayer. }
  destruct (String.eqb renderer "UniqueValueRenderer"); [apply Hend|].
  destruct (String.eqb renderer "GraduatedColorsRenderer"); [apply Hend|].
  apply (Hend (Err _)).
Qed.

End MapRun.

(** ** The states of a run of [create_single_map] *)

Section MapFacts.
Context `{Engine}.

Lemma index0_Ok_inv {A} (xs : list A) (x : A) :
  index0 xs = Ok x → ∃ rest, xs = x :: rest.
Proof. destruct xs as [|y rest]; [done|]. intros [= ->]. by exists rest. Qed.

Lemma loaded_state_layer map_name layer_name l0 s :
  prj_layers (loaded_state map_name layer_name l0 s)
    !! new_layer_ref map_name s = Some (set_lyr_name layer_name l0).
Proof.
  unfold loaded_state, new_layer_ref. simpl. rewrite <- length_app.
  apply snoc_lookup.
Qed.

Lemma loaded_state_map map_name layer_name l0 s :
  ∃ mp,
    prj_maps (loaded_state map_name layer_name l0 s) = prj_maps s ++ [mp] ∧
    mp_name mp = map_name ∧
    ∀ r, r ∈ map_layers mp →
      ∃ l, prj_layers (loaded_state map_name layer_name l0 s) !! r = Some l ∧
           isBasemapLayer l = false.
Proof.
  eexists. split; [reflexivity|]. split; [reflexivity|].
  intros r [Hb Hr]%list_elem_of_filter. simpl in *.
  unfold is_basemap in Hb.
  destruct (_ !! r) as [l|] eqn:Hl; [by exists l|].
  exfalso. apply lookup_ge_None in Hl. rewrite !length_app in Hl. simpl in Hl.
  apply elem_of_cons in Hr as [->|[Hlo Hhi]%elem_of_seq];
    unfold new_layer_ref in *; lia.
Qed.

Lemma styled_state_maps layer sym t :
  prj_maps (styled_state layer sym t) = prj_maps t.
Proof. unfold styled_state. by destruct (_ !! layer). Qed.

Lemma styled_state_layer layer sym t l :
  prj_layers t !! layer = Some l →
  prj_layers (styled_state layer sym t) !! layer
    = Some (set_lyr_symbology sym l).
Proof.
  intros Hl. unfold styled_state. rewrite Hl. simpl.
  apply list_lookup_insert_eq. by eapply lookup_lt_Some.
Qed.

Lemma styled_state_basemap layer sym t r l :
  prj_layers t !! r = Some l →
  ∃ l', prj_layers (styled_state layer sym t) !! r = Some l' ∧
        isBasemapLayer l' = isBasemapLayer l.
Proof.
  intros Hr. unfold styled_state.
  destruct (prj_layers t !! layer) as [l1|] eqn:Hl1; [|by exists l].
  simpl. destruct (decide (layer = r)) as [->|Hne].
  - assert (Some l1 = Some l) as [= ->] by (by etrans; [symmetry; exact Hl1|]).
    rewrite list_lookup_insert_eq by by eapply lookup_lt_Some.
    by eexists.
  - rewrite list_lookup_insert_ne by done. by exists l.
Qed.

Lemma create_single_map_Ok map_name layer_path layer_name renderer
    variable_name color_map label_map classification_method break_count
    s m layer s' :
  create_single_map map_name layer_path layer_name renderer variable_name
    color_map label_map classification_method break_count s
    = (Ok (m, layer), s') →
  ∃ l0 sym,
    host_open_dataset layer_path = Done l0 ∧
    style_symbology renderer variable_name color_map label_map
      (default default_classification_method classification_method)
      (default default_break_count break_count) (lyr_symbology l0) = Ok sym ∧
    m = length (prj_maps s) ∧
    layer = new_layer_ref map_name s ∧
    s' = styled_state layer sym (loaded_state map_name layer_name l0 s).
Proof.
  rewrite create_single_map_run.
  destruct (host_open_dataset layer_path) as [l0|msg]; [|done].
  cbv zeta.
  destruct (style_symbology _ _ _ _ _ _ _) as [sym|e] eqn:Hstyle; [|done].
  intros Heq. injection Heq as <- <- <-. by exists l0, sym.
Qed.

Lemma style_unique_Ok variable_name color_map label_map classification_method
    break_count sym0 sym' :
  style_symbology "UniqueValueRenderer" variable_name color_map label_map
    classification_method break_count sym0 = Ok sym' →
  ∃ sym ramp ramps r g gs sorted items',
    host_updateRenderer "UniqueValueRenderer" sym0 = Done sym ∧
    host_listColorRamps color_map = ramp :: ramps ∧
    host_set_fields [variable_name] (set_colorRamp ramp (sym_renderer sym))
      = Done r ∧
    rnd_groups r = g :: gs ∧
    list_sort first_value (grp_items g) = Ok sorted ∧
    relabel label_map sorted = Ok items' ∧
    sym' = {| sym_renderer := set_rnd_groups (set_grp_items items' g :: gs) r |}.
Proof.
  unfold style_symbology.
  intros (sym & Hsym%from_host_Ok_inv & (ramp & [ramps Hramp]%index0_Ok_inv & Hrest)%bind_Ok_inv)%bind_Ok_inv.
  simpl in Hrest. unfold unique_value_symbology in Hrest.
  apply bind_Ok_inv in Hrest as (r & Hr%from_host_Ok_inv & Hrest).
  apply bind_Ok_inv in Hrest as (g & [gs Hg]%index0_Ok_inv & Hrest).
  apply bind_Ok_inv in Hrest as (sorted & Hsorted & Hrest).
  apply bind_Ok_inv in Hrest as (items' & Hitems & [= <-]).
  exists sym, ramp, ramps, r, g, gs, sorted, items'.
  rewrite Hg. by repeat split.
Qed.

Lemma unique_value_outcome map_name layer_path layer_name variable_name
    color_map label_map classification_method break_count s m layer s' :
  create_single_map map_name layer_path layer_name "UniqueValueRenderer"
    variable_name color_map label_map classification_method break_count s
    = (Ok (m, layer), s') →
  ∃ l0 sym ramp ramps r g0 gs sorted items',
    host_open_dataset layer_path = Done l0 ∧
    host_updateRenderer "UniqueValueRenderer" (lyr_symbology l0) = Done sym ∧
    host_listColorRamps color_map = ramp :: ramps ∧
    host_set_fields [variable_name] (set_colorRamp ramp (sym_renderer sym))
      = Done r ∧
    rnd_groups r = g0 :: gs ∧
    list_sort first_value (grp_items g0) = Ok sorted ∧
    relabel label_map sorted = Ok items' ∧
    prj_layers s' !! layer
    = Some (set_lyr_symbology
              {| sym_renderer :=
                   set_rnd_groups (set_grp_items items' g0 :: gs) r |}
              (set_lyr_name layer_name l0)).
Proof.
  intros (l0 & sym' & Hopen & Hstyle & -> & -> & ->)%create_single_map_Ok.
  apply style_unique_Ok in Hstyle
    as (sym & ramp & ramps & r & g0 & gs & sorted & items' & Hsym & Hramps
        & Hr & Hgroups & Hsorted & Hrelabel & ->).
  exists l0, sym, ramp, ramps, r, g0, gs, sorted, items'.
  repeat (split; [done|]). apply styled_state_layer, loaded_state_layer.
Qed.

End MapFacts.

Section MapProperties.
Context `{Engine}.

(** C1 (as it holds on the code).  For a renderer string other than the two
    supported literals, [create_single_map] never returns a value; and when
    the host calls made before the renderer is looked at go through (the
    dataset opens, [updateRenderer] accepts the string, [color_map] names
    at least one colour ramp), it fails with the [ValueError] whose message
    is ["Unsupported renderer: "] followed by the renderer string. *)
Theorem unsupported_renderer_fails map_name layer_path layer_name renderer
    variable_name color_map label_map classification_method break_count s :
  String.eqb renderer "UniqueValueRenderer" = false →
  String.eqb renderer "GraduatedColorsRenderer" = false →
  (∀ ret,
     (create_single_map map_name layer_path layer_name renderer variable_name
        color_map label_map classification_method break_count s).1 ≠ Ok ret) ∧
  (∀ l0 sym ramp ramps,
     host_open_dataset layer_path = Done l0 →
     host_updateRenderer renderer (lyr_symbology l0) = Done sym →
     host_listColorRamps color_map = ramp :: ramps →
     (create_single_map map_name layer_path layer_name renderer variable_name
        color_map label_map classification_method break_count s).1
     = Err (ValueError ("Unsupported renderer: " +:+ renderer))).
Proof.
  intros Hu Hg. rewrite create_single_map_run. split.
  - intros ret. destruct (host_open_dataset layer_path) as [l0|msg]; [|done].
    cbv zeta. unfold style_symbology.
    destruct (host_updateRenderer _ _) as [sym|msg]; [|done].
    destruct (host_listColorRamps _) as [|ramp ramps]; [done|].
    simpl. by rewrite Hu, Hg.
  - intros l0 sym ramp ramps -> Hsym Hramps. cbv zeta.
    unfold style_symbology. rewrite Hsym, Hramps. simpl. by rewrite Hu, Hg.
Qed.

(** C2.  Unique-value symbology: after a successful call the items of the
    renderer's group are the items the host listed there, in the order of
    the sort, and each of them has as its label the entry of the caller's
    label mapping for the integer value of the item when the mapping has
    one, and the decimal string of that value otherwise. *)
Theorem unique_value_labels map_name layer_path layer_name variable_name
    color_map label_map classification_method break_count s m layer s' :
  create_single_map map_name layer_path layer_name "UniqueValueRenderer"
    variable_name color_map label_map classification_method break_count s
    = (Ok (m, layer), s') →
  ∃ l0 sym ramp ramps r g0 sorted l g,
    host_open_dataset layer_path = Done l0 ∧
    host_updateRenderer "UniqueValueRenderer" (lyr_symbology l0) = Done sym ∧
    host_listColorRamps color_map = ramp :: ramps ∧
    host_set_fields [variable_name] (set_colorRamp ramp (sym_renderer sym))
      = Done r ∧
    rnd_groups r !! 0%nat = Some g0 ∧
    list_sort first_value (grp_items g0) = Ok sorted ∧
    prj_layers s' !! layer = Some l ∧
    rnd_groups (sym_renderer (lyr_symbology l)) !! 0%nat = Some g ∧
    Forall2 (relabelled label_map) sorted (grp_items g).
Proof.
  intros (l0 & sym & ramp & ramps & r & g0 & gs & sorted & items' & Hopen
          & Hsym & Hramps & Hr & Hgroups & Hsorted & Hrelabel & Hl
         )%unique_value_outcome.
  exists l0, sym, ramp, ramps, r, g0, sorted. eexists _, _.
  repeat (split; [done|]). split; [by rewrite Hgroups|].
  split; [done|]. split; [exact Hl|]. split; [reflexivity|].
  simpl. by apply relabel_spec.
Qed.

(** C3 (as it holds on the code).  With ["UniqueValueRenderer"], after a
    successful call the items of the first group of the renderer, that is
    [groups[0]], are the items the host listed there, reordered so that
    their first values ascend, and each is relabelled from the caller's
    label mapping with the decimal string of the value as fallback.  Only
    the first group is concerned. *)
Theorem unique_value_first_group_sorted map_name layer_path layer_name
    variable_name color_map label_map classification_method break_count
    s m layer s' :
  create_single_map map_name layer_path layer_name "UniqueValueRenderer"
    variable_name color_map label_map classification_method break_count s
    = (Ok (m, layer), s') →
  ∃ l0 sym ramp ramps r g0 sorted l g,
    host_open_dataset layer_path = Done l0 ∧
    host_updateRenderer "UniqueValueRenderer" (lyr_symbology l0) = Done sym ∧
    host_listColorRamps color_map = ramp :: ramps ∧
    host_set_fields [variable_name] (set_colorRamp ramp (sym_renderer sym))
      = Done r ∧
    rnd_groups r !! 0%nat = Some g0 ∧
    prj_layers s' !! layer = Some l ∧
    rnd_groups (sym_renderer (lyr_symbology l)) !! 0%nat = Some g ∧
    Permutation (grp_items g0) sorted ∧
    StronglySorted first_value_le sorted ∧
    Forall2 (relabelled label_map) sorted (grp_items g) ∧
    StronglySorted first_value_le (grp_items g).
Proof.
  intros (l0 & sym & ramp & ramps & r & g0 & gs & sorted & items' & Hopen
          & Hsym & Hramps & Hr & Hgroups & Hsorted & Hrelabel & Hl
         )%unique_value_outcome.
  apply list_sort_spec in Hsorted as [Hperm Hsorted].
  apply relabel_spec in Hrelabel.
  exists l0, sym, ramp, ramps, r, g0, sorted. eexists _, _.
  repeat (split; [done|]). split; [by rewrite Hgroups|].
  split; [exact Hl|]. split; [reflexivity|]. simpl.
  repeat (split; [done|]).
  eapply StronglySorted_same_values; [|done].
  eapply Forall2_impl; [done|]. intros a b. apply relabelled_values.
Qed.

(** C5.  After [create_single_map] has returned, no layer of the map it
    returns is a basemap layer. *)
Theorem no_basemap_layer_left map_name layer_path layer_name renderer
    variable_name color_map label_map classification_method break_count
    s m layer s' :
  create_single_map map_name layer_path layer_name renderer variable_name
    color_map label_map classification_method break_count s
    = (Ok (m, layer), s') →
  ∃ mp,
    prj_maps s' !! m = Some mp ∧
    ∀ r, r ∈ map_layers mp →
      ∃ l, prj_layers s' !! r = Some l ∧ isBasemapLayer l = false.
Proof.
  intros (l0 & sym & Hopen & Hstyle & -> & -> & ->)%create_single_map_Ok.
  destruct (loaded_state_map map_name layer_name l0 s)
    as (mp & Hmaps & _ & Hlayers).
  exists mp. split.
  - rewrite styled_state_maps, Hmaps. apply snoc_lookup.
  - intros r (l & Hl & Hb)%Hlayers.
    destruct (styled_state_basemap (new_layer_ref map_name s) sym _ _ _ Hl)
      as (l' & Hl' & Hb').
    exists l'. split; [done|congruence].
Qed.

(** C8 (as it holds on the code).  With the label mapping left at [None] and
    ["UniqueValueRenderer"] giving a first group of at least one item,
    [create_single_map] never returns a value, so no label falls back to a
    decimal string; and it ends with the [AttributeError] of [None.get]
    when the items can be sorted and the first of them in sorted order has
    a first value that [int] accepts. *)
Theorem omitted_label_map_fails map_name layer_path layer_name variable_name
    color_map classification_method break_count s l0 sym ramp ramps r g gs
    item items :
  host_open_dataset layer_path = Done l0 →
  host_updateRenderer "UniqueValueRenderer" (lyr_symbology l0) = Done sym →
  host_listColorRamps color_map = ramp :: ramps →
  host_set_fields [variable_name] (set_colorRamp ramp (sym_renderer sym))
    = Done r →
  rnd_groups r = g :: gs →
  grp_items g = item :: items →
  (∀ ret,
     (create_single_map map_name layer_path layer_name "UniqueValueRenderer"
        variable_name color_map None classification_method break_count s).1
     ≠ Ok ret) ∧
  (∀ first rest val,
     list_sort first_value (grp_items g) = Ok (first :: rest) →
     first_value first ≫= py_int = Ok val →
     (create_single_map map_name layer_path layer_name "UniqueValueRenderer"
        variable_name color_map None classification_method break_count s).1
     = Err (AttributeError "'NoneType' object has no attribute 'get'")).
Proof.
  intros Hopen Hsym Hramps Hr Hgroups Hitems.
  rewrite create_single_map_run, Hopen. cbv zeta.
  unfold style_symbology. rewrite Hsym, Hramps. simpl.
  unfold unique_value_symbology. simpl sym_renderer. rewrite Hr. simpl.
  rewrite Hgroups. simpl. split.
  - intros ret.
    destruct (list_sort first_value (grp_items g)) as [sorted|e] eqn:Hsorted;
      [|done].
    apply list_sort_spec in Hsorted as [Hperm _]. rewrite Hitems in Hperm.
    destruct sorted as [|first rest];
      [by apply Permutation_nil_r in Hperm|].
    simpl. unfold relabel_item.
    destruct (first_value first) as [v|e]; [|done]. simpl.
    by destruct (py_int v).
  - intros first rest val -> (v & Hv & Hval)%bind_Ok_inv.
    simpl. unfold relabel_item. by rewrite Hv, Ok_bind, Hval.
Qed.


(** C10.  Unique-value symbology works on [groups[0]] only: after a
    successful call the renderer has as many groups as the host listed
    when [fields] was assigned, and every group but the first is the one
    the host listed, items and labels included. *)
Theorem other_groups_unchanged map_name layer_path layer_name variable_name
    color_map label_map classification_method break_count s m layer s' :
  create_single_map map_name layer_path layer_name "UniqueValueRenderer"
    variable_name color_map label_map classification_method break_count s
    = (Ok (m, layer), s') →
  ∃ l0 sym ramp ramps r l,
    host_open_dataset layer_path = Done l0 ∧
    host_updateRenderer "UniqueValueRenderer" (lyr_symbology l0) = Done sym ∧
    host_listColorRamps color_map = ramp :: ramps ∧
    host_set_fields [variable_name] (set_colorRamp ramp (sym_renderer sym))
      = Done r ∧
    prj_layers s' !! layer = Some l ∧
    length (rnd_groups (sym_renderer (lyr_symbology l)))
      = length (rnd_groups r) ∧
    ∀ i, (0 < i)%nat →
      rnd_groups (sym_renderer (lyr_symbology l)) !! i = rnd_groups r !! i.
Proof.
  intros (l0 & sym' & Hopen & Hstyle & -> & -> & ->)%create_single_map_Ok.
  apply style_unique_Ok in Hstyle
    as (sym & ramp & ramps & r & g0 & gs & sorted & items' & Hsym & Hramps
        & Hr & Hgroups & _ & _ & ->).
  exists l0, sym, ramp, ramps, r. eexists.
  repeat (split; [done|]).
  split; [apply styled_state_layer, loaded_state_layer|].
  simpl. rewrite Hgroups. split; [done|].
  intros [|i] Hi; [lia|done].
Qed.

End MapProperties.

(** ** The run of [create_standard_layout] *)

Section Layouts.
Context `{Engine}.
Implicit Types (s : Project) (lyt : Layout) (elm : CIMElement).

Lemma on_page_lookup s lyt :
  prj_layouts (on_page s lyt) !! length (prj_layouts s) = Some lyt.
Proof. apply snoc_lookup. Qed.

Lemma layout_getDefinition_run s lyt :
  layout_getDefinition (length (prj_layouts s)) (on_page s lyt) =
  (Ok lyt, on_page s lyt).
Proof. apply deref_run, on_page_lookup. Qed.

Lemma layout_setDefinition_run s lyt cim :
  layout_setDefinition (length (prj_layouts s)) cim (on_page s lyt) =
  (Ok (), on_page s cim).
Proof.
  unfold layout_setDefinition.
  rewrite bind_run, (deref_run _ _ _ lyt) by apply on_page_lookup.
  rewrite bind_run. unfold on_page, set_prj_layouts. simpl.
  by rewrite snoc_insert.
Qed.

Lemma add_element_run s lyt elm :
  add_element (length (prj_layouts s)) elm (on_page s lyt) =
  (Ok (length (prj_layouts s), length (lyt_elements lyt)),
   on_page s (set_lyt_elements (lyt_elements lyt ++ [elm]) lyt)).
Proof.
  unfold add_element.
  rewrite bind_run, (deref_run _ _ _ lyt) by apply on_page_lookup.
  cbv beta iota. by rewrite bind_run, layout_setDefinition_run.
Qed.

Lemma element_getDefinition_run s lyt i elm :
  lyt_elements lyt !! i = Some elm →
  element_getDefinition (length (prj_layouts s), i) (on_page s lyt) =
  (Ok elm, on_page s lyt).
Proof.
  intros Hi. unfold element_getDefinition.
  rewrite bind_run, (deref_run _ _ _ lyt) by apply on_page_lookup.
  simpl. by rewrite Hi.
Qed.

Lemma element_setDefinition_run s lyt i cim :
  element_setDefinition (length (prj_layouts s), i) cim (on_page s lyt) =
  (Ok (), on_page s (set_lyt_elements (<[i := cim]> (lyt_elements lyt)) lyt)).
Proof.
  unfold element_setDefinition.
  rewrite bind_run, (deref_run _ _ _ lyt) by apply on_page_lookup.
  apply layout_setDefinition_run.
Qed.

Lemma update_element_run s lyt i f elm elm' :
  lyt_elements lyt !! i = Some elm → f elm = Ok elm' →
  update_element (length (prj_layouts s), i) f (on_page s lyt) =
  (Ok (), on_page s (set_lyt_elements (<[i := elm']> (lyt_elements lyt)) lyt)).
Proof.
  intros Hi Hf. unfold update_element.
  rewrite bind_run, (element_getDefinition_run _ _ _ elm) by done.
  cbv beta iota. rewrite bind_run. unfold lift. rewrite Hf.
  apply element_setDefinition_run.
Qed.

Lemma deref_on_page {A} what (heap : Project → list A) (r : nat) s lyt :
  heap (on_page s lyt) = heap s →
  deref what heap r (on_page s lyt) =
  match heap s !! r with
  | Some a => (Ok a, on_page s lyt)
  | None => (Err (HostError ("stale " +:+ what)), on_page s lyt)
  end.
Proof. intros Hh. unfold deref. by rewrite Hh. Qed.

Lemma createMapSurroundElement_legend layout anchor mf style_item :
  createMapSurroundElement layout anchor "LEGEND" mf style_item =
  (frame ← element_getDefinition mf;
   match frame with
   | CIMMapFrame _ view _ _ =>
       mp ← deref "map" prj_maps view;
       add_element layout
         (CIMLegend anchor mf.2 style_item None None
            (host_legend_items style_item (map_layers mp)))
   | _ => raise (HostError "not a map frame")
   end).
Proof. reflexivity. Qed.

Lemma createMapSurroundElement_scale_bar layout anchor mf style_item :
  createMapSurroundElement layout anchor "SCALE_BAR" mf style_item =
  add_element layout (CIMScaleLine anchor mf.2 style_item).
Proof. reflexivity. Qed.

Lemma createMapSurroundElement_north_arrow layout anchor mf style_item :
  createMapSurroundElement layout anchor "NORTH_ARROW" mf style_item =
  add_element layout (CIMMarkerNorthArrow anchor mf.2 style_item).
Proof. reflexivity. Qed.

Ltac run_update :=
  rewrite bind_run; erewrite update_element_run; [|reflexivity|reflexivity];
  cbv beta iota.

Ltac run_add := rewrite bind_run, add_element_run; cbv beta iota.

Ltac run_lift name :=
  rewrite bind_run; unfold lift at 1;
  lazymatch goal with
  | |- match ?r with Ok _ => _ | Err _ => _ end = _ → _ =>
      destruct r as [?|?] eqn:name; [|intros [=]]
  end;
  cbv beta iota.

Ltac run_deref name :=
  rewrite deref_on_page by reflexivity;
  lazymatch goal with
  | |- context [match ?o with Some _ => _ | None => _ end] =>
      destruct o as [?|] eqn:name; [|intros [=]]
  end;
  cbv beta iota.

Lemma create_standard_layout_Ok map_obj layer layout_name title_text
    mapframe_extent title_position legend_position legend_size
    scalebar_position north_arrow_position s layout s' :
  create_standard_layout map_obj layer layout_name title_text mapframe_extent
    title_position legend_position legend_size scalebar_position
    north_arrow_position s = (Ok layout, s') →
  ∃ l ext txt_style legend_style scalebar_style north_arrow_style mp,
    prj_layers s !! layer = Some l ∧
    host_getLayerExtent l = Done ext ∧
    index0 (host_listStyleItems "ArcGIS 2D" "TEXT" "Title (Serif)") = Ok txt_style ∧
    index0 (host_listStyleItems "ArcGIS 2D" "LEGEND" "Legend 1") = Ok legend_style ∧
    index0 (host_listStyleItems "ArcGIS 2D" "SCALE_BAR" "Scale Line 1 Metric")
      = Ok scalebar_style ∧
    index0 (host_listStyleItems "ArcGIS 2D" "NORTH_ARROW" "ArcGIS North 1")
      = Ok north_arrow_style ∧
    prj_maps s !! map_obj = Some mp ∧
    layout = length (prj_layouts s) ∧
    s' = on_page s
      {| lyt_name := layout_name; page_width := 8.27%Q; page_height := 5.83%Q;
         page_units := "INCH";
         lyt_elements :=
           [ CIMMapFrame (default default_mapframe_extent mapframe_extent) map_obj
               {| borderSymbol := None;
                  backgroundSymbol := backgroundSymbol host_default_graphicFrame |}
               (Some ext);
             CIMTextGraphic
               (point_of (default default_title_position title_position))
               "POINT" title_text 20 txt_style "Center_Point" "Garamond";
             CIMLegend
               (point_of (default default_legend_position legend_position))
               0 legend_style
               (Some (default default_legend_size legend_size).1)
               (Some (default default_legend_size legend_size).2)
               (hide_names <$> host_legend_items legend_style (map_layers mp));
             CIMScaleLine
               (point_of (default default_scalebar_position scalebar_position))
               0 scalebar_style;
             CIMMarkerNorthArrow
               (point_of (default default_north_arrow_position north_arrow_position))
               0 north_arrow_style ] |}.
Proof.
  unfold create_standard_layout. rewrite bind_run.
  change (createLayout 8.27%Q 5.83%Q "INCH" layout_name s)
    with (Ok (length (prj_layouts s)),
          on_page s {| lyt_name := layout_name; page_width := 8.27%Q;
                       page_height := 5.83%Q; page_units := "INCH";
                       lyt_elements := [] |}).
  cbv beta iota. unfold createMapFrame. run_add.
  rewrite bind_run, layout_getDefinition_run. cbv beta iota.
  rewrite bind_run, layout_setDefinition_run. cbv beta iota.
  rewrite bind_run. unfold getLayerExtent. rewrite bind_run.
  run_deref Hlayer.
  unfold lift at 1.
  destruct (host_getLayerExtent _) as [ext|] eqn:Hext; [|intros [=]].
  simpl from_host.
  cbv beta iota. unfold camera_setExtent. run_update.
  run_lift Htxt.
  rewrite bind_run. unfold createTextElement.
  destruct (host_text_defaults _) as [placement font].
  rewrite add_element_run. cbv beta iota.
  unfold setAnchor. run_update.
  unfold set_fontFamilyName. run_update.
  run_lift Hlegend.
  rewrite bind_run, createMapSurroundElement_legend, bind_run.
  erewrite element_getDefinition_run by reflexivity. cbv beta iota.
  rewrite bind_run. run_deref Hmap.
  rewrite add_element_run. cbv beta iota.
  unfold set_elementWidth. run_update.
  unfold set_elementHeight. run_update.
  rewrite bind_run.
  erewrite element_getDefinition_run by reflexivity. cbv beta iota.
  rewrite bind_run. unfold lift at 1. cbn [hide_item_names]. cbv beta iota.
  rewrite bind_run, element_setDefinition_run. cbv beta iota.
  run_lift Hscalebar.
  rewrite bind_run, createMapSurroundElement_scale_bar, add_element_run.
  cbv beta iota.
  run_lift Hnorth.
  rewrite bind_run, createMapSurroundElement_north_arrow, add_element_run.
  cbv beta iota.
  intros [= <- <-].
  eexists _, _, _, _, _, _, _. repeat (split; [done|]).
  destruct mapframe_extent; reflexivity.
Qed.


(** C6.  After [create_standard_layout] has returned, the definition of
    the layout holds the map frame, and every element of it whose type is
    [CIMMapFrame] has a graphic frame without border symbol: the edited
    definition was written back. *)
Theorem map_frame_border_removed map_obj layer layout_name title_text
    mapframe_extent title_position legend_position legend_size
    scalebar_position north_arrow_position s layout s' :
  create_standard_layout map_obj layer layout_name title_text mapframe_extent
    title_position legend_position legend_size scalebar_position
    north_arrow_position s = (Ok layout, s') →
  ∃ lyt,
    prj_layouts s' !! layout = Some lyt ∧
    (∃ elm, elm ∈ lyt_elements lyt ∧ type_name elm = "CIMMapFrame") ∧
    ∀ elm, elm ∈ lyt_elements lyt → type_name elm = "CIMMapFrame" →
      ∃ frame view gf camera,
        elm = CIMMapFrame frame view gf camera ∧ borderSymbol gf = None.
Proof.
  intros (l & ext & txt & leg & sb & na & mp & _ & _ & _ & _ & _ & _ & _
          & -> & ->)%create_standard_layout_Ok.
  eexists. split; [apply on_page_lookup|]. simpl. split.
  - eexists. split; [by left|done].
  - intros elm Helm Htype.
    repeat (apply elem_of_cons in Helm as [->|Helm]; [try done|]).
    + by eexists _, _, _, _.
    + by apply elem_of_nil in Helm.
Qed.

(** C7.  After [create_standard_layout] has returned, the layout holds
    one legend, the third element.  Its items are the items the host made
    for the layers of the map, in the same order and for the same layers,
    each with [showLayerName] and [showHeading] switched off: the edited
    definition was written back to the legend. *)
Theorem legend_items_hidden map_obj layer layout_name title_text
    mapframe_extent title_position legend_position legend_size
    scalebar_position north_arrow_position s layout s' :
  create_standard_layout map_obj layer layout_name title_text mapframe_extent
    title_position legend_position legend_size scalebar_position
    north_arrow_position s = (Ok layout, s') →
  ∃ lyt mp legend_style legend_styles anchor frame width height items,
    prj_layouts s' !! layout = Some lyt ∧
    prj_maps s !! map_obj = Some mp ∧
    host_listStyleItems "ArcGIS 2D" "LEGEND" "Legend 1"
      = legend_style :: legend_styles ∧
    lyt_elements lyt !! 2%nat
      = Some (CIMLegend anchor frame legend_style width height items) ∧
    Forall2
      (λ made item,
         legend_layer item = legend_layer made ∧
         showLayerName item = false ∧ showHeading item = false)
      (host_legend_items legend_style (map_layers mp)) items ∧
    ∀ i elm, lyt_elements lyt !! i = Some elm →
      type_name elm = "CIMLegend" → i = 2%nat.
Proof.
  intros (l & ext & txt & leg & sb & na & mp & _ & _ & _
          & [legs Hleg]%index0_Ok_inv & _ & _ & Hmap & -> & ->
         )%create_standard_layout_Ok.
  eexists _, mp, leg, legs, _, _, _, _, _.
  split; [apply on_page_lookup|]. split; [done|]. split; [done|].
  simpl. split; [reflexivity|]. split.
  - apply Forall2_fmap_r, Forall_Forall2_diag, Forall_forall. by intros.
  - intros [|[|[|[|[|i]]]]] elm; simpl; intros [= <-]; done.
Qed.

(** The border loop on any definition *)
Lemma remove_borders_spec lyt_cim elm :
  elm ∈ lyt_elements (remove_borders lyt_cim) →
  type_name elm = "CIMMapFrame" →
  ∃ frame view gf camera,
    elm = CIMMapFrame frame view gf camera ∧ borderSymbol gf = None.
Proof.
  simpl. intros (elm0 & -> & _)%list_elem_of_fmap.
  destruct elm0; try done. intros _. by eexists _, _, _, _.
Qed.

End Layouts.

(** ** The optional parameters *)

(** C4.  Leaving the optional parameters out is the same as passing the
    literals of the signatures: classification method ["NaturalBreaks"],
    break count 5, title position (4.1215, 5.539), legend position
    (0.1464, 2.2927), legend size (1.2357, 1.7131), scale-bar position
    (2.7713, 0.2371), north-arrow position (7.2704, 4.8844). *)
Theorem optional_parameter_defaults `{Engine}
    (map_name layer_path layer_name renderer variable_name color_map : string)
    (label_map : option (gmap Z string))
    (map_obj : map_ref) (layer : layer_ref) (layout_name title_text : string)
    (mapframe_extent : option Extent) :
  create_single_map map_name layer_path layer_name renderer variable_name
    color_map label_map None None
  = create_single_map map_name layer_path layer_name renderer variable_name
      color_map label_map (Some "NaturalBreaks") (Some 5)
  ∧
  create_standard_layout map_obj layer layout_name title_text mapframe_extent
    None None None None None
  = create_standard_layout map_obj layer layout_name title_text
      mapframe_extent
      (Some (4.1215, 5.539)%Q) (Some (0.1464, 2.2927)%Q)
      (Some (1.2357, 1.7131)%Q) (Some (2.7713, 0.2371)%Q)
      (Some (7.2704, 4.8844)%Q).
Proof. split; reflexivity. Qed.

(** ** The properties on the sample session *)

(** ["SimpleRenderer"] is known to the host and not to the script. *)
Lemma unsupported_renderer_fails_witness :
  Sample.simple_run.1
  = Err (ValueError "Unsupported renderer: SimpleRenderer").
Proof.
  eapply (proj2 (unsupported_renderer_fails (H:=Sample.engine)
                   "Districts" "data/districts.shp" "Districts"
                   "SimpleRenderer" "zone_id" "Viridis" None None None
                   Sample.empty_project eq_refl eq_refl));
    vm_compute; reflexivity.
Defined.

(** With an unsupported renderer and a colour ramp name the host does not
    know, the call ends at [listColorRamps(color_map)[0]] with an
    [IndexError], before the renderer is looked at. *)
Lemma unsupported_renderer_missing_ramp :
  String.eqb "SimpleRenderer" "UniqueValueRenderer" = false ∧
  String.eqb "SimpleRenderer" "GraduatedColorsRenderer" = false ∧
  Sample.no_ramp_run.1 = Err (IndexError "list index out of range") ∧
  Sample.no_ramp_run.1
    ≠ Err (ValueError ("Unsupported renderer: " +:+ "SimpleRenderer")).
Proof. repeat split; try (vm_compute; reflexivity). vm_compute. discriminate. Qed.

Lemma unique_value_labels_witness :
  Sample.zone_run = (Ok (0%nat, 2%nat), Sample.zone_run.2) ∧
  ∃ l g,
    prj_layers Sample.zone_run.2 !! 2%nat = Some l ∧
    rnd_groups (sym_renderer (lyr_symbology l)) !! 0%nat = Some g ∧
    item_label <$> grp_items g = ["Low"; "Medium"; "3"].
Proof.
  split; [vm_compute; reflexivity|].
  destruct (unique_value_labels (H:=Sample.engine)
              "Districts" "data/districts.shp" "Districts" "zone_id" "Viridis"
              (Some Sample.zone_labels) None None Sample.empty_project
              0%nat 2%nat Sample.zone_run.2)
    as (_ & _ & _ & _ & _ & _ & _ & l & g & _ & _ & _ & _ & _ & _ & Hl & Hg
        & _).
  - vm_compute. reflexivity.
  - exists l, g. split; [done|]. split; [done|].
    vm_compute in Hl. injection Hl as <-.
    vm_compute in Hg. injection Hg as <-. reflexivity.
Defined.

Lemma unique_value_first_group_sorted_witness :
  Sample.zone_run = (Ok (0%nat, 2%nat), Sample.zone_run.2) ∧
  ∃ l g,
    prj_layers Sample.zone_run.2 !! 2%nat = Some l ∧
    rnd_groups (sym_renderer (lyr_symbology l)) !! 0%nat = Some g ∧
    StronglySorted first_value_le (grp_items g).
Proof.
  split; [vm_compute; reflexivity|].
  destruct (unique_value_first_group_sorted (H:=Sample.engine)
              "Districts" "data/districts.shp" "Districts" "zone_id" "Viridis"
              (Some Sample.zone_labels) None None Sample.empty_project
              0%nat 2%nat Sample.zone_run.2)
    as (_ & _ & _ & _ & _ & _ & _ & l & g & _ & _ & _ & _ & _ & Hl & Hg & _
        & _ & _ & Hsorted).
  - vm_compute. reflexivity.
  - by exists l, g.
Defined.

(** A renderer with two groups: the call succeeds and the second group is
    left as the host listed it, values 4 then 3. *)
Lemma second_group_left_unsorted :
  Sample.ward_run = (Ok (0%nat, 2%nat), Sample.ward_run.2) ∧
  ∃ l g,
    prj_layers Sample.ward_run.2 !! 2%nat = Some l ∧
    g ∈ rnd_groups (sym_renderer (lyr_symbology l)) ∧
    ¬ StronglySorted first_value_le (grp_items g).
Proof.
  split; [vm_compute; reflexivity|].
  eexists _, _. split; [vm_compute; reflexivity|]. split.
  - simpl. right. left.
  - simpl. intros [_ Hhd]%StronglySorted_inv.
    apply Forall_cons in Hhd as [(ka & kb & Ha & Hb & Hlt) _].
    vm_compute in Ha, Hb. injection Ha as <-. injection Hb as <-.
    vm_compute in Hlt. discriminate.
Qed.

Lemma no_basemap_layer_left_witness :
  Sample.zone_run = (Ok (0%nat, 2%nat), Sample.zone_run.2) ∧
  ∃ mp,
    prj_maps Sample.zone_run.2 !! 0%nat = Some mp ∧
    ∀ r, r ∈ map_layers mp →
      ∃ l, prj_layers Sample.zone_run.2 !! r = Some l ∧
           isBasemapLayer l = false.
Proof.
  split; [vm_compute; reflexivity|].
  apply (no_basemap_layer_left (H:=Sample.engine)
           "Districts" "data/districts.shp" "Districts" "UniqueValueRenderer"
           "zone_id" "Viridis" (Some Sample.zone_labels) None None
           Sample.empty_project 0%nat 2%nat Sample.zone_run.2).
  vm_compute. reflexivity.
Defined.

Lemma map_frame_border_removed_witness :
  Sample.layout_run = (Ok 0%nat, Sample.layout_run.2) ∧
  ∃ lyt,
    prj_layouts Sample.layout_run.2 !! 0%nat = Some lyt ∧
    (∃ elm, elm ∈ lyt_elements lyt ∧ type_name elm = "CIMMapFrame") ∧
    ∀ elm, elm ∈ lyt_elements lyt → type_name elm = "CIMMapFrame" →
      ∃ frame view gf camera,
        elm = CIMMapFrame frame view gf camera ∧ borderSymbol gf = None.
Proof.
  split; [vm_compute; reflexivity|].
  apply (map_frame_border_removed (H:=Sample.engine) 0%nat 2%nat "Zones"
           "Zones by district" None None None None None None
           Sample.zone_run.2 0%nat Sample.layout_run.2).
  vm_compute. reflexivity.
Defined.

Lemma legend_items_hidden_witness :
  Sample.layout_run = (Ok 0%nat, Sample.layout_run.2) ∧
  ∃ lyt anchor frame style width height,
    prj_layouts Sample.layout_run.2 !! 0%nat = Some lyt ∧
    lyt_elements lyt !! 2%nat
    = Some (CIMLegend anchor frame style width height
              [{| legend_layer := 2%nat; showLayerName := false;
                  showHeading := false |}]).
Proof.
  split; [vm_compute; reflexivity|].
  destruct (legend_items_hidden (H:=Sample.engine) 0%nat 2%nat "Zones"
              "Zones by district" None None None None None None
              Sample.zone_run.2 0%nat Sample.layout_run.2)
    as (lyt & mp & st & sts & anchor & frame & width & height & items & Hlyt
        & _ & _ & Hlegend & _ & _).
  - vm_compute. reflexivity.
  - exists lyt, anchor, frame, st, width, height. split; [done|].
    vm_compute in Hlyt. injection Hlyt as <-.
    vm_compute in Hlegend. injection Hlegend as <- <- <- <- <- <-.
    reflexivity.
Defined.

Lemma omitted_label_map_fails_witness :
  Sample.unlabelled_run.1
  = Err (AttributeError "'NoneType' object has no attribute 'get'").
Proof.
  eapply (proj2 (omitted_label_map_fails (H:=Sample.engine)
                   "Districts" "data/districts.shp" "Districts" "zone_id"
                   "Viridis" None None Sample.empty_project
                   Sample.districts _ {| ramp_name := "Viridis" |} _ _
                   _ _ _ _
                   eq_refl eq_refl eq_refl eq_refl eq_refl eq_refl));
    vm_compute; reflexivity.
Defined.

(** Without label mapping on a field of names: the first group has items,
    and the call ends in [int("Commercial")] with a [ValueError], one line
    before [label_map.get]. *)
Lemma omitted_label_map_other_error :
  (∃ l0 sym ramp ramps r g gs item items,
     host_open_dataset (Engine:=Sample.engine) "data/districts.shp" = Done l0 ∧
     host_updateRenderer (Engine:=Sample.engine) "UniqueValueRenderer"
       (lyr_symbology l0) = Done sym ∧
     host_listColorRamps (Engine:=Sample.engine) "Viridis" = ramp :: ramps ∧
     host_set_fields (Engine:=Sample.engine) ["landuse"]
       (set_colorRamp ramp (sym_renderer sym)) = Done r ∧
     rnd_groups r = g :: gs ∧
     grp_items g = item :: items) ∧
  Sample.landuse_run.1
    = Err (ValueError "invalid literal for int() with base 10: 'Commercial'") ∧
  Sample.landuse_run.1
    ≠ Err (AttributeError "'NoneType' object has no attribute 'get'").
Proof.
  split; [|split].
  - eexists _, _, _, _, _, _, _, _, _. repeat split; vm_compute; reflexivity.
  - vm_compute. reflexivity.
  - vm_compute. discriminate.
Qed.


Lemma other_groups_unchanged_witness :
  Sample.ward_run = (Ok (0%nat, 2%nat), Sample.ward_run.2) ∧
  ∃ l,
    prj_layers Sample.ward_run.2 !! 2%nat = Some l ∧
    rnd_groups (sym_renderer (lyr_symbology l)) !! 1%nat
      = Sample.groups_of ["ward"] !! 1%nat.
Proof.
  split; [vm_compute; reflexivity|].
  destruct (other_groups_unchanged (H:=Sample.engine)
              "Districts" "data/districts.shp" "Districts" "ward" "Viridis"
              (Some Sample.zone_labels) None None Sample.empty_project
              0%nat 2%nat Sample.ward_run.2)
    as (l0 & sym & ramp & ramps & r & l & _ & _ & _ & Hr & Hl & _ & Hrest).
  - vm_compute. reflexivity.
  - exists l. split; [done|]. rewrite Hrest by lia.
    simpl in Hr. by injection Hr as <-.
Defined.

(** * Further properties *)

(** ** The project after [create_single_map] *)

Section MapExtras.
Context `{Engine}.

Lemma styled_loaded_layers map_name layer_name l0 sym s :
  prj_layers (styled_state (new_layer_ref map_name s) sym
                (loaded_state map_name layer_name l0 s))
  = (prj_layers s ++ host_new_map_layers map_name)
      ++ [set_lyr_symbology sym (set_lyr_name layer_name l0)].
Proof.
  unfold styled_state. rewrite loaded_state_layer. simpl.
  unfold new_layer_ref. rewrite <- length_app. apply snoc_insert.
Qed.

Lemma styled_state_layouts layer sym t :
  prj_layouts (styled_state layer sym t) = prj_layouts t.
Proof. unfold styled_state. by destruct (_ !! layer). Qed.

Lemma is_basemap_styled map_name layer_name l0 sym s r :
  is_basemap
    (prj_layers (styled_state (new_layer_ref map_name s) sym
                   (loaded_state map_name layer_name l0 s))) r
  = is_basemap (prj_layers (loaded_state map_name layer_name l0 s)) r.
Proof.
  rewrite styled_loaded_layers. unfold is_basemap. simpl.
  destruct (decide (r < length (prj_layers s ++ host_new_map_layers map_name))%nat).
  - rewrite !(lookup_app_l (_ ++ _)) by done. done.
  - rewrite !(lookup_app_r (_ ++ _)) by lia.
    by destruct (r - _)%nat as [|k].
Qed.

(** X1.  Whatever the outcome of [create_single_map], the layouts of the
    project are as before, the maps are the former ones followed by one
    new map of the given name, and every layer that existed is still there
    unchanged. *)
Theorem create_single_map_keeps_existing map_name layer_path layer_name
    renderer variable_name color_map label_map classification_method
    break_count s :
  let s' := (create_single_map map_name layer_path layer_name renderer
               variable_name color_map label_map classification_method
               break_count s).2 in
  prj_layouts s' = prj_layouts s ∧
  (∃ mp, prj_maps s' = prj_maps s ++ [mp] ∧ mp_name mp = map_name) ∧
  prj_layers s `prefix_of` prj_layers s'.
Proof.
  rewrite create_single_map_run.
  destruct (host_open_dataset layer_path) as [l0|msg].
  - cbv zeta.
    destruct (style_symbology _ _ _ _ _ _ _) as [sym|e]; simpl.
    + split; [by rewrite styled_state_layouts|].
      split.
      * rewrite styled_state_maps. by eexists.
      * rewrite styled_loaded_layers, <- app_assoc. by apply prefix_app_r.
    + split; [done|]. split; [by eexists|].
      rewrite <- app_assoc. by apply prefix_app_r.
  - simpl. split; [done|]. split; [by eexists|]. by apply prefix_app_r.
Qed.

(** X2.  The symbology is written to the layer on success only: when
    [create_single_map] ends with an exception after the dataset was
    loaded, the layer carries the new name and the symbology it was loaded
    with. *)
Theorem symbology_kept_on_error map_name layer_path layer_name renderer
    variable_name color_map label_map classification_method break_count
    s e s' l0 :
  create_single_map map_name layer_path layer_name renderer variable_name
    color_map label_map classification_method break_count s = (Err e, s') →
  host_open_dataset layer_path = Done l0 →
  prj_layers s' !! new_layer_ref map_name s
  = Some {| lyr_name := layer_name; isBasemapLayer := isBasemapLayer l0;
            lyr_symbology := lyr_symbology l0 |}.
Proof.
  rewrite create_single_map_run. intros Hrun Hopen. rewrite Hopen in Hrun.
  cbv zeta in Hrun.
  destruct (style_symbology _ _ _ _ _ _ _) as [sym|e']; [done|].
  injection Hrun as _ <-. apply loaded_state_layer.
Qed.

(** X3.  The map returned by [create_single_map] has the given name, and
    its layers are the loaded layer followed by the layers the map started
    with, without those that are basemap layers and in that order.  So the
    returned layer is a layer of the returned map exactly when the loaded
    dataset is not itself a basemap layer. *)
Theorem returned_map_layers map_name layer_path layer_name renderer
    variable_name color_map label_map classification_method break_count
    s m layer s' :
  create_single_map map_name layer_path layer_name renderer variable_name
    color_map label_map classification_method break_count s
    = (Ok (m, layer), s') →
  ∃ l0 mp,
    host_open_dataset layer_path = Done l0 ∧
    prj_maps s' !! m = Some mp ∧
    mp_name mp = map_name ∧
    map_layers mp =
      filter (λ r, is_basemap (prj_layers s') r = false)
        (layer :: seq (length (prj_layers s))
                    (length (host_new_map_layers map_name))) ∧
    (layer ∈ map_layers mp ↔ isBasemapLayer l0 = false).
Proof.
  intros (l0 & sym & Hopen & Hstyle & -> & -> & ->)%create_single_map_Ok.
  exists l0. eexists. split; [done|].
  split; [rewrite styled_state_maps; apply snoc_lookup|].
  split; [done|]. simpl. split.
  - apply list_filter_iff. intros r. by rewrite is_basemap_styled.
  - rewrite list_elem_of_filter. unfold is_basemap.
    pose proof (loaded_state_layer map_name layer_name l0 s) as Hl.
    simpl in Hl. rewrite Hl. simpl. split; [by intros [? _]|].
    intros Hb. split; [done|by left].
Qed.

(** X4.  When the dataset cannot be opened, [create_single_map] ends with
    the failure of the host, and the map created first stays in the
    project with all the layers it started with, basemap layers
    included. *)
Theorem failed_load_leaves_map map_name layer_path layer_name renderer
    variable_name color_map label_map classification_method break_count
    s msg :
  host_open_dataset layer_path = Failed msg →
  create_single_map map_name layer_path layer_name renderer variable_name
    color_map label_map classification_method break_count s
  = (Err (HostError msg),
     {| prj_maps :=
          prj_maps s ++
          [{| mp_name := map_name;
              map_layers := seq (length (prj_layers s))
                              (length (host_new_map_layers map_name)) |}];
        prj_layers := prj_layers s ++ host_new_map_layers map_name;
        prj_layouts := prj_layouts s |}).
Proof. intros Hopen. by rewrite create_single_map_run, Hopen. Qed.

(** X5.  When [color_map] matches no colour ramp, [create_single_map]
    ends with [IndexError] at [listColorRamps(color_map)[0]], for every
    renderer string. *)
Theorem no_color_ramp_index_error map_name layer_path layer_name renderer
    variable_name color_map label_map classification_method break_count
    s l0 sym :
  host_open_dataset layer_path = Done l0 →
  host_updateRenderer renderer (lyr_symbology l0) = Done sym →
  host_listColorRamps color_map = [] →
  (create_single_map map_name layer_path layer_name renderer variable_name
     color_map label_map classification_method break_count s).1
  = Err (IndexError "list index out of range").
Proof.
  intros Hopen Hsym Hramps. rewrite create_single_map_run, Hopen. cbv zeta.
  unfold style_symbology. by rewrite Hsym, Hramps.
Qed.

End MapExtras.

(** ** More on [<] and the sort *)

Lemma py_lt_irrefl (k : pyval) : py_lt k k = Ok false.
Proof.
  destruct k as [z|s]; simpl; f_equal; [lia|].
  destruct (String_as_OT.compare_spec s s) as [_|Hlt|Hlt]; try done;
    by apply (StrictOrder_Irreflexive (R:=String_as_OT.lt)) in Hlt.
Qed.

Lemma py_lt_Ok_same_kind (a b : pyval) (r : bool) :
  py_lt a b = Ok r → same_kind a b.
Proof. by destruct a, b. Qed.

Lemma py_lt_same_kind (a b : pyval) :
  same_kind a b → ∃ r, py_lt a b = Ok r.
Proof. destruct a, b; simpl; try done; by eexists. Qed.

Lemma py_lt_Err (a b : pyval) (e : exn) :
  py_lt a b = Err e → ∃ msg, e = TypeError msg.
Proof. destruct a, b; simpl; try done; intros [= <-]; by eexists. Qed.

Lemma same_kind_trans (a b c : pyval) :
  same_kind a b → same_kind b c → same_kind a c.
Proof. by destruct a, b, c. Qed.

Lemma same_kind_sym (a b : pyval) : same_kind a b → same_kind b a.
Proof. by destruct a, b. Qed.

Section SortMore.
Context {A : Type}.
Implicit Types (l : list (pyval * A)) (kx : pyval * A).

Lemma insert_keyed_stable (k : pyval) kx l l' :
  insert_keyed kx l = Ok l' →
  filter (λ p, p.1 = k) l' = filter (λ p, p.1 = k) (kx :: l).
Proof.
  revert l'. induction l as [|ky r IH]; intros l'; simpl.
  - by intros [= <-].
  - intros (b & Hb & Hins)%bind_Ok_inv. destruct b.
    + apply fmap_Ok_inv in Hins as (r' & Hr' & ->).
      rewrite (filter_cons _ ky r'), (IH _ Hr'), !filter_cons.
      destruct (decide (ky.1 = k)) as [Hy|Hy], (decide (kx.1 = k)) as [Hx|Hx];
        try done.
      rewrite Hy, Hx, py_lt_irrefl in Hb. done.
    + by injection Hins as <-.
Qed.

Lemma sort_keyed_stable (k : pyval) l l' :
  sort_keyed l = Ok l' →
  filter (λ p, p.1 = k) l' = filter (λ p, p.1 = k) l.
Proof.
  revert l'. induction l as [|kx r IH]; intros l'; simpl.
  - by intros [= <-].
  - intros (r' & Hr' & Hins)%bind_Ok_inv.
    rewrite (insert_keyed_stable _ _ _ _ Hins), !filter_cons, (IH _ Hr').
    done.
Qed.

Lemma insert_keyed_one_kind kx l l' :
  insert_keyed kx l = Ok l' → one_kind l → one_kind (kx :: l).
Proof.
  destruct l as [|ky r]; simpl.
  - intros _ _ p q ->%list_elem_of_singleton ->%list_elem_of_singleton.
    by destruct (kx.1).
  - intros (b & Hb & _)%bind_Ok_inv Hl.
    apply py_lt_Ok_same_kind in Hb.
    assert (∀ p, p ∈ ky :: r → same_kind kx.1 p.1) as Hx.
    { intros p Hp. eapply same_kind_trans; [by apply same_kind_sym|].
      apply Hl; [by left|done]. }
    intros p q [->|Hp]%elem_of_cons [->|Hq]%elem_of_cons.
    + by destruct (kx.1).
    + by apply Hx.
    + by apply same_kind_sym, Hx.
    + by apply Hl.
Qed.

Lemma sort_keyed_one_kind l l' : sort_keyed l = Ok l' → one_kind l.
Proof.
  revert l'. induction l as [|kx r IH]; intros l'; simpl.
  - intros _ p q Hp. by apply elem_of_nil in Hp.
  - intros (r' & Hr' & Hins)%bind_Ok_inv.
    pose proof (sort_keyed_Permutation _ _ Hr') as Hperm.
    apply insert_keyed_one_kind in Hins.
    + intros p q Hp Hq. apply Hins; by rewrite <- Hperm.
    + intros p q Hp Hq. apply (IH _ Hr'); by rewrite Hperm.
Qed.

Lemma insert_keyed_Err kx l e :
  insert_keyed kx l = Err e → ∃ msg, e = TypeError msg.
Proof.
  induction l as [|ky r IH]; simpl; [done|].
  destruct (py_lt ky.1 kx.1) as [b|e'] eqn:Hb; simpl.
  - destruct b; [|done]. destruct (insert_keyed kx r); [done|].
    intros [= <-]. by apply IH.
  - intros [= <-]. by eapply py_lt_Err.
Qed.

Lemma sort_keyed_Err l e : sort_keyed l = Err e → ∃ msg, e = TypeError msg.
Proof.
  induction l as [|kx r IH]; simpl; [done|].
  destruct (sort_keyed r) as [r'|e']; simpl.
  - apply insert_keyed_Err.
  - intros [= <-]. by apply IH.
Qed.

Lemma insert_keyed_total kx l :
  one_kind (kx :: l) → ∃ l', insert_keyed kx l = Ok l'.
Proof.
  induction l as [|ky r IH]; intros Hk; simpl; [by eexists|].
  destruct (py_lt_same_kind ky.1 kx.1) as [b Hb].
  { apply Hk; [right; by left|by left]. }
  rewrite Hb. simpl. destruct b; [|by eexists].
  destruct IH as [r' Hr'].
  { intros p q Hp Hq. apply Hk.
    - apply elem_of_cons in Hp as [->|Hp]; [by left|by do 2 right].
    - apply elem_of_cons in Hq as [->|Hq]; [by left|by do 2 right]. }
  rewrite Hr'. by eexists.
Qed.

Lemma sort_keyed_total l : one_kind l → ∃ l', sort_keyed l = Ok l'.
Proof.
  induction l as [|kx r IH]; intros Hk; simpl; [by eexists|].
  destruct IH as [r' Hr'].
  { intros p q Hp Hq. apply Hk; by right. }
  rewrite Hr'. simpl. apply insert_keyed_total.
  pose proof (sort_keyed_Permutation _ _ Hr') as Hperm.
  intros p q Hp Hq. apply Hk; by rewrite Hperm.
Qed.

End SortMore.

(** ** The unique-value and graduated branches *)

Lemma first_value_Err (item : Item) (e : exn) :
  first_value item = Err e → e = IndexError "list index out of range".
Proof.
  unfold first_value. destruct (item_values item) as [|[|v vs] rest]; simpl;
    by intros [= <-].
Qed.

Lemma with_keys_Err (items : list Item) (item : Item) (e : exn) :
  item ∈ items → first_value item = Err e →
  with_keys first_value items = Err (IndexError "list index out of range").
Proof.
  intros Hin Herr. induction items as [|x r IH]; [by apply elem_of_nil in Hin|].
  simpl. destruct (first_value x) as [k|e'] eqn:Hx; simpl.
  - apply elem_of_cons in Hin as [->|Hin]; [congruence|].
    by rewrite (IH Hin).
  - by rewrite (first_value_Err _ _ Hx).
Qed.

Lemma with_keys_total (items : list Item) :
  Forall (λ it, ∃ k, first_value it = Ok k) items →
  ∃ kl, with_keys first_value items = Ok kl.
Proof.
  induction 1 as [|x r [k Hk] _ [kl IH]]; simpl; [by eexists|].
  rewrite Hk, IH. by eexists.
Qed.

Lemma filter_keyed_items (k : pyval) (kl : list (pyval * Item)) :
  Forall (λ p, first_value p.2 = Ok p.1) kl →
  filter (has_first_value k) (kl.*2) = (filter (λ p, p.1 = k) kl).*2.
Proof.
  induction 1 as [|p l Hp _ IH]; [done|].
  rewrite fmap_cons, !filter_cons, IH.
  destruct (decide (has_first_value k p.2)) as [Hk|Hk],
    (decide (p.1 = k)) as [Hk'|Hk']; try done.
  - unfold has_first_value in Hk. congruence.
  - unfold has_first_value in Hk. congruence.
Qed.

(** X6.  The sort of line 69 is stable: among the items of any one first
    value, the order after the sort is the order before it. *)
Theorem sort_is_stable (items items' : list Item) (k : pyval) :
  list_sort first_value items = Ok items' →
  filter (has_first_value k) items' = filter (has_first_value k) items.
Proof.
  unfold list_sort.
  intros (kl & Hkl & (sorted & Hsorted & [= <-])%bind_Ok_inv)%bind_Ok_inv.
  apply with_keys_Ok in Hkl as [<- Hkeys].
  pose proof (sort_keyed_Permutation _ _ Hsorted) as Hperm.
  rewrite !filter_keyed_items; [|done|by rewrite <- Hperm].
  by rewrite (sort_keyed_stable _ _ _ Hsorted).
Qed.

(** X7.  When, among items that all have a first value, one has an
    integer and another a string, the sort of line 69 ends with a
    [TypeError]. *)
Theorem sort_mixed_values_type_error (items : list Item) (a b : Item) x str :
  Forall (λ it, ∃ k, first_value it = Ok k) items →
  a ∈ items → b ∈ items →
  first_value a = Ok (PInt x) → first_value b = Ok (PStr str) →
  ∃ msg, list_sort first_value items = Err (TypeError msg).
Proof.
  intros Hall Ha Hb Hka Hkb. unfold list_sort.
  destruct (with_keys_total _ Hall) as [kl Hkl]. rewrite Hkl. simpl.
  apply with_keys_Ok in Hkl as [<- Hkeys].
  destruct (sort_keyed kl) as [sorted|e] eqn:Hsorted; simpl.
  - exfalso. apply sort_keyed_one_kind in Hsorted.
    apply list_elem_of_fmap in Ha as (p & -> & Hp).
    apply list_elem_of_fmap in Hb as (q & -> & Hq).
    specialize (Hsorted p q Hp Hq).
    rewrite Forall_forall in Hkeys.
    rewrite (Hkeys _ Hp) in Hka. rewrite (Hkeys _ Hq) in Hkb.
    injection Hka as Hka. injection Hkb as Hkb.
    by rewrite Hka, Hkb in Hsorted.
  - destruct (sort_keyed_Err _ _ Hsorted) as [msg ->]. by exists msg.
Qed.

Section UniqueExtras.
Context `{Engine}.

Lemma list_sort_integer_text (items : list Item) :
  Forall integer_text items →
  ∃ items', list_sort first_value items = Ok items' ∧
            Forall integer_text items'.
Proof.
  intros Hall. unfold list_sort.
  destruct (with_keys_total items) as [kl Hkl].
  { eapply Forall_impl; [done|]. intros it (str & z & text & Hit & _).
    by eexists. }
  rewrite Hkl. simpl. apply with_keys_Ok in Hkl as [<- Hkeys].
  destruct (sort_keyed_total kl) as [sorted Hsorted].
  { rewrite Forall_forall in Hkeys. rewrite Forall_forall in Hall.
    intros p q Hp Hq.
    destruct (Hall p.2) as (sp & zp & tp & Hsp & _);
      [apply list_elem_of_fmap; by exists p|].
    destruct (Hall q.2) as (sq & zq & tq & Hsq & _);
      [apply list_elem_of_fmap; by exists q|].
    rewrite (Hkeys _ Hp) in Hsp. rewrite (Hkeys _ Hq) in Hsq.
    injection Hsp as ->. injection Hsq as ->. done. }
  rewrite Hsorted. simpl. eexists. split; [done|].
  apply sort_keyed_Permutation in Hsorted. by rewrite <- Hsorted.
Qed.

Lemma relabel_integer_text (d : gmap Z string) (items : list Item) :
  Forall integer_text items → ∃ items', relabel (Some d) items = Ok items'.
Proof.
  induction 1 as [|x r (str & z & text & Hx & Hz & Htext) _ [r' IH]]; simpl;
    [by eexists|].
  unfold relabel_item. rewrite Hx. simpl. rewrite Hz. simpl. rewrite Htext.
  simpl. rewrite IH. by eexists.
Qed.

Lemma style_unique_run variable_name color_map label_map classification_method
    break_count sym0 sym ramp ramps r :
  host_updateRenderer "UniqueValueRenderer" sym0 = Done sym →
  host_listColorRamps color_map = ramp :: ramps →
  host_set_fields [variable_name] (set_colorRamp ramp (sym_renderer sym))
    = Done r →
  style_symbology "UniqueValueRenderer" variable_name color_map label_map
    classification_method break_count sym0
  = (g0 ← index0 (rnd_groups r);
     items ← list_sort first_value (grp_items g0);
     items ← relabel label_map items;
     Ok {| sym_renderer :=
             set_rnd_groups (set_grp_items items g0 :: tail (rnd_groups r)) r |}).
Proof.
  intros Hsym Hramps Hr. unfold style_symbology. rewrite Hsym, Hramps. simpl.
  unfold unique_value_symbology. simpl sym_renderer. by rewrite Hr.
Qed.

(** X8.  Unique-value symbology ends with [IndexError] when the renderer
    has no group ([groups[0]]), and when some item of the first group has
    an empty [values] list or an empty first value list
    ([values[0][0]]). *)
Theorem unique_value_index_errors map_name layer_path layer_name variable_name
    color_map label_map classification_method break_count s l0 sym ramp ramps
    r :
  host_open_dataset layer_path = Done l0 →
  host_updateRenderer "UniqueValueRenderer" (lyr_symbology l0) = Done sym →
  host_listColorRamps color_map = ramp :: ramps →
  host_set_fields [variable_name] (set_colorRamp ramp (sym_renderer sym))
    = Done r →
  (rnd_groups r = [] ∨
   ∃ g gs item,
     rnd_groups r = g :: gs ∧ item ∈ grp_items g ∧
     (item_values item = [] ∨ ∃ rest, item_values item = [] :: rest)) →
  (create_single_map map_name layer_path layer_name "UniqueValueRenderer"
     variable_name color_map label_map classification_method break_count s).1
  = Err (IndexError "list index out of range").
Proof.
  intros Hopen Hsym Hramps Hr Hcase.
  rewrite create_single_map_run, Hopen. cbv zeta.
  rewrite (style_unique_run _ _ _ _ _ _ _ _ _ _ Hsym Hramps Hr).
  destruct Hcase as [->|(g & gs & item & -> & Hitem & Hvalues)]; [done|].
  simpl. unfold list_sort.
  rewrite (with_keys_Err _ item (IndexError "list index out of range"));
    [done|done|].
  unfold first_value. by destruct Hvalues as [->|[rest ->]].
Qed.

(** X9.  When the first group has no items, unique-value symbology
    returns for every label mapping, [None] included, and the layer gets
    the renderer as the host left it when [fields] was assigned. *)
Theorem unique_value_no_items map_name layer_path layer_name variable_name
    color_map label_map classification_method break_count s l0 sym ramp ramps
    r g gs :
  host_open_dataset layer_path = Done l0 →
  host_updateRenderer "UniqueValueRenderer" (lyr_symbology l0) = Done sym →
  host_listColorRamps color_map = ramp :: ramps →
  host_set_fields [variable_name] (set_colorRamp ramp (sym_renderer sym))
    = Done r →
  rnd_groups r = g :: gs →
  grp_items g = [] →
  ∃ s',
    create_single_map map_name layer_path layer_name "UniqueValueRenderer"
      variable_name color_map label_map classification_method break_count s
    = (Ok (length (prj_maps s), new_layer_ref map_name s), s') ∧
    prj_layers s' !! new_layer_ref map_name s
    = Some {| lyr_name := layer_name; isBasemapLayer := isBasemapLayer l0;
              lyr_symbology := {| sym_renderer := r |} |}.
Proof.
  intros Hopen Hsym Hramps Hr Hgroups Hitems.
  rewrite create_single_map_run, Hopen. cbv zeta.
  rewrite (style_unique_run _ _ _ _ _ _ _ _ _ _ Hsym Hramps Hr).
  rewrite Hgroups. simpl. rewrite Hitems. simpl.
  eexists. split; [done|].
  rewrite styled_loaded_layers. unfold new_layer_ref.
  rewrite <- length_app, snoc_lookup.
  do 3 f_equal. destruct r, g; simpl in *. by subst.
Qed.

(** X10.  [create_single_map] returns with ["UniqueValueRenderer"] when
    the host calls go through, a label mapping is given, and the first
    value of every item of the first group is a string that [int] accepts
    and whose integer [str] can print. *)
Theorem unique_value_returns map_name layer_path layer_name variable_name
    color_map d classification_method break_count s l0 sym ramp ramps
    r g gs :
  host_open_dataset layer_path = Done l0 →
  host_updateRenderer "UniqueValueRenderer" (lyr_symbology l0) = Done sym →
  host_listColorRamps color_map = ramp :: ramps →
  host_set_fields [variable_name] (set_colorRamp ramp (sym_renderer sym))
    = Done r →
  rnd_groups r = g :: gs →
  Forall integer_text (grp_items g) →
  (create_single_map map_name layer_path layer_name "UniqueValueRenderer"
     variable_name color_map (Some d) classification_method break_count s).1
  = Ok (length (prj_maps s), new_layer_ref map_name s).
Proof.
  intros Hopen Hsym Hramps Hr Hgroups Hitems.
  rewrite create_single_map_run, Hopen. cbv zeta.
  rewrite (style_unique_run _ _ _ _ _ _ _ _ _ _ Hsym Hramps Hr).
  rewrite Hgroups. simpl.
  destruct (list_sort_integer_text _ Hitems) as (sorted & -> & Hsorted).
  simpl. by destruct (relabel_integer_text d _ Hsorted) as [items' ->].
Qed.


(** X12.  The parameters of the other renderer are not looked at: with
    ["UniqueValueRenderer"] the outcome does not depend on the
    classification method and the break count, with
    ["GraduatedColorsRenderer"] it does not depend on the label
    mapping. *)
Theorem unused_parameters_ignored map_name layer_path layer_name variable_name
    color_map s :
  (∀ label_map cm bc cm' bc',
     create_single_map map_name layer_path layer_name "UniqueValueRenderer"
       variable_name color_map label_map cm bc s
     = create_single_map map_name layer_path layer_name "UniqueValueRenderer"
         variable_name color_map label_map cm' bc' s) ∧
  (∀ label_map label_map' cm bc,
     create_single_map map_name layer_path layer_name "GraduatedColorsRenderer"
       variable_name color_map label_map cm bc s
     = create_single_map map_name layer_path layer_name
         "GraduatedColorsRenderer" variable_name color_map label_map' cm bc s).
Proof. split; intros; by rewrite !create_single_map_run. Qed.

End UniqueExtras.

(** ** More on [create_standard_layout] *)

Section LayoutExtras.
Context `{Engine}.

Ltac step_update :=
  rewrite bind_run; erewrite update_element_run; [|reflexivity|reflexivity];
  cbv beta iota.

Ltac step_add := rewrite bind_run, add_element_run; cbv beta iota.

Ltac step_deref Hlookup :=
  erewrite deref_run by exact Hlookup; cbv beta iota.

Ltac step_style :=
  rewrite bind_run; unfold lift at 1;
  lazymatch goal with
  | |- context [index0 ?l] => destruct l as [|? ?]
  end;
  cbv beta iota.

(** The run of [create_standard_layout] when nothing fails *)
Lemma create_standard_layout_run map_obj layer layout_name title_text
    mapframe_extent title_position legend_position legend_size
    scalebar_position north_arrow_position s l ext mp
    txt_style legend_style scalebar_style north_arrow_style :
  prj_layers s !! layer = Some l →
  host_getLayerExtent l = Done ext →
  prj_maps s !! map_obj = Some mp →
  index0 (host_listStyleItems "ArcGIS 2D" "TEXT" "Title (Serif)")
    = Ok txt_style →
  index0 (host_listStyleItems "ArcGIS 2D" "LEGEND" "Legend 1")
    = Ok legend_style →
  index0 (host_listStyleItems "ArcGIS 2D" "SCALE_BAR" "Scale Line 1 Metric")
    = Ok scalebar_style →
  index0 (host_listStyleItems "ArcGIS 2D" "NORTH_ARROW" "ArcGIS North 1")
    = Ok north_arrow_style →
  create_standard_layout map_obj layer layout_name title_text mapframe_extent
    title_position legend_position legend_size scalebar_position
    north_arrow_position s
  = (Ok (length (prj_layouts s)),
     on_page s
      {| lyt_name := layout_name; page_width := 8.27%Q; page_height := 5.83%Q;
         page_units := "INCH";
         lyt_elements :=
           [ CIMMapFrame (default default_mapframe_extent mapframe_extent) map_obj
               {| borderSymbol := None;
                  backgroundSymbol := backgroundSymbol host_default_graphicFrame |}
               (Some ext);
             CIMTextGraphic
               (point_of (default default_title_position title_position))
               "POINT" title_text 20 txt_style "Center_Point" "Garamond";
             CIMLegend
               (point_of (default default_legend_position legend_position))
               0 legend_style
               (Some (default default_legend_size legend_size).1)
               (Some (default default_legend_size legend_size).2)
               (hide_names <$> host_legend_items legend_style (map_layers mp));
             CIMScaleLine
               (point_of (default default_scalebar_position scalebar_position))
               0 scalebar_style;
             CIMMarkerNorthArrow
               (point_of (default default_north_arrow_position north_arrow_position))
               0 north_arrow_style ] |}).
Proof.
  intros Hlayer Hext Hmap Htxt Hlegend Hscalebar Hnorth.
  unfold create_standard_layout. rewrite bind_run.
  change (createLayout 8.27%Q 5.83%Q "INCH" layout_name s)
    with (Ok (length (prj_layouts s)),
          on_page s {| lyt_name := layout_name; page_width := 8.27%Q;
                       page_height := 5.83%Q; page_units := "INCH";
                       lyt_elements := [] |}).
  cbv beta iota. unfold createMapFrame. step_add.
  rewrite bind_run, layout_getDefinition_run. cbv beta iota.
  rewrite bind_run, layout_setDefinition_run. cbv beta iota.
  rewrite bind_run. unfold getLayerExtent. rewrite bind_run.
  step_deref Hlayer. unfold lift at 1. rewrite Hext.
  simpl from_host. cbv beta iota. unfold camera_setExtent. step_update.
  rewrite bind_run. unfold lift at 1. rewrite Htxt. cbv beta iota.
  rewrite bind_run. unfold createTextElement.
  destruct (host_text_defaults _) as [placement font].
  rewrite add_element_run. cbv beta iota.
  unfold setAnchor. step_update.
  unfold set_fontFamilyName. step_update.
  rewrite bind_run. unfold lift at 1. rewrite Hlegend. cbv beta iota.
  rewrite bind_run, createMapSurroundElement_legend, bind_run.
  erewrite element_getDefinition_run by reflexivity. cbv beta iota.
  rewrite bind_run. step_deref Hmap.
  rewrite add_element_run. cbv beta iota.
  unfold set_elementWidth. step_update.
  unfold set_elementHeight. step_update.
  rewrite bind_run.
  erewrite element_getDefinition_run by reflexivity. cbv beta iota.
  rewrite bind_run. unfold lift at 1. cbn [hide_item_names]. cbv beta iota.
  rewrite bind_run, element_setDefinition_run. cbv beta iota.
  rewrite bind_run. unfold lift at 1. rewrite Hscalebar. cbv beta iota.
  rewrite bind_run, createMapSurroundElement_scale_bar, add_element_run.
  cbv beta iota.
  rewrite bind_run. unfold lift at 1. rewrite Hnorth. cbv beta iota.
  rewrite bind_run, createMapSurroundElement_north_arrow, add_element_run.
  cbv beta iota.
  destruct mapframe_extent; reflexivity.
Qed.

Ltac stop_here :=
  simpl; eexists; (split; [reflexivity|by repeat split]).

Ltac split_deref :=
  rewrite deref_on_page by reflexivity;
  lazymatch goal with
  | |- context [match ?o with Some _ => _ | None => _ end] =>
      destruct o as [?|]; [|stop_here]
  end;
  cbv beta iota.

Ltac split_style :=
  rewrite bind_run; unfold lift at 1;
  lazymatch goal with
  | |- context [index0 ?l] => destruct (index0 l) as [?|?]; [|stop_here]
  end;
  cbv beta iota.

(** X13.  Whatever the outcome of [create_standard_layout], the maps and
    the layers of the project are as before and the layouts are the
    former ones followed by one new layout, which has the given name and
    a page of 8.27 by 5.83 inches: a call that fails leaves its
    unfinished layout in the project. *)
Theorem create_standard_layout_keeps_project map_obj layer layout_name
    title_text mapframe_extent title_position legend_position legend_size
    scalebar_position north_arrow_position s :
  ∃ lyt,
    (create_standard_layout map_obj layer layout_name title_text
       mapframe_extent title_position legend_position legend_size
       scalebar_position north_arrow_position s).2
    = {| prj_maps := prj_maps s; prj_layers := prj_layers s;
         prj_layouts := prj_layouts s ++ [lyt] |} ∧
    lyt_name lyt = layout_name ∧
    page_width lyt = 8.27%Q ∧ page_height lyt = 5.83%Q ∧
    page_units lyt = "INCH".
Proof.
  unfold create_standard_layout. rewrite bind_run.
  change (createLayout 8.27%Q 5.83%Q "INCH" layout_name s)
    with (Ok (length (prj_layouts s)),
          on_page s {| lyt_name := layout_name; page_width := 8.27%Q;
                       page_height := 5.83%Q; page_units := "INCH";
                       lyt_elements := [] |}).
  cbv beta iota. unfold createMapFrame. step_add.
  rewrite bind_run, layout_getDefinition_run. cbv beta iota.
  rewrite bind_run, layout_setDefinition_run. cbv beta iota.
  rewrite bind_run. unfold getLayerExtent. rewrite bind_run.
  split_deref. unfold lift at 1.
  destruct (host_getLayerExtent _) as [ext|]; [|stop_here].
  simpl from_host. cbv beta iota. unfold camera_setExtent. step_update.
  split_style.
  rewrite bind_run. unfold createTextElement.
  destruct (host_text_defaults _) as [placement font].
  rewrite add_element_run. cbv beta iota.
  unfold setAnchor. step_update.
  unfold set_fontFamilyName. step_update.
  split_style.
  rewrite bind_run, createMapSurroundElement_legend, bind_run.
  erewrite element_getDefinition_run by reflexivity. cbv beta iota.
  rewrite bind_run. split_deref.
  rewrite add_element_run. cbv beta iota.
  unfold set_elementWidth. step_update.
  unfold set_elementHeight. step_update.
  rewrite bind_run.
  erewrite element_getDefinition_run by reflexivity. cbv beta iota.
  rewrite bind_run. unfold lift at 1. cbn [hide_item_names]. cbv beta iota.
  rewrite bind_run, element_setDefinition_run. cbv beta iota.
  split_style.
  rewrite bind_run, createMapSurroundElement_scale_bar, add_element_run.
  cbv beta iota.
  split_style.
  rewrite bind_run, createMapSurroundElement_north_arrow, add_element_run.
  cbv beta iota. stop_here.
Qed.

(** X14.  When the layer and the map exist, the extent of the layer can
    be computed and the four styles are found, [create_standard_layout]
    returns the new layout, which holds, in this order: the map frame on
    the given rectangle (or the default one), without border, with its
    background kept and zoomed to the extent of the layer; the title, 20
    points, anchored at its centre, in Garamond; the legend of the given
    size whose items are those the host made for the layers of the map,
    names and headings hidden; the scale bar; the north arrow; each at
    the given position or at its default. *)
Theorem layout_built map_obj layer layout_name title_text
    mapframe_extent title_position legend_position legend_size
    scalebar_position north_arrow_position s l ext mp
    txt_style txt_styles legend_style legend_styles
    scalebar_style scalebar_styles north_arrow_style north_arrow_styles :
  prj_layers s !! layer = Some l →
  host_getLayerExtent l = Done ext →
  prj_maps s !! map_obj = Some mp →
  host_listStyleItems "ArcGIS 2D" "TEXT" "Title (Serif)"
    = txt_style :: txt_styles →
  host_listStyleItems "ArcGIS 2D" "LEGEND" "Legend 1"
    = legend_style :: legend_styles →
  host_listStyleItems "ArcGIS 2D" "SCALE_BAR" "Scale Line 1 Metric"
    = scalebar_style :: scalebar_styles →
  host_listStyleItems "ArcGIS 2D" "NORTH_ARROW" "ArcGIS North 1"
    = north_arrow_style :: north_arrow_styles →
  ∃ s',
    create_standard_layout map_obj layer layout_name title_text
      mapframe_extent title_position legend_position legend_size
      scalebar_position north_arrow_position s
    = (Ok (length (prj_layouts s)), s') ∧
    prj_layouts s' !! length (prj_layouts s) =
    Some
      {| lyt_name := layout_name; page_width := 8.27%Q; page_height := 5.83%Q;
         page_units := "INCH";
         lyt_elements :=
           [ CIMMapFrame
               match mapframe_extent with
               | Some e => e
               | None =>
                   {| XMin := 0.885%Q; YMin := 0.665%Q;
                      XMax := 7.385%Q; YMax := 5.165%Q |}
               end
               map_obj
               {| borderSymbol := None;
                  backgroundSymbol := backgroundSymbol host_default_graphicFrame |}
               (Some ext);
             CIMTextGraphic
               (point_of (default (4.1215, 5.539)%Q title_position))
               "POINT" title_text 20 txt_style "Center_Point" "Garamond";
             CIMLegend
               (point_of (default (0.1464, 2.2927)%Q legend_position))
               0 legend_style
               (Some (default (1.2357, 1.7131)%Q legend_size).1)
               (Some (default (1.2357, 1.7131)%Q legend_size).2)
               ((λ item,
                   {| legend_layer := legend_layer item;
                      showLayerName := false; showHeading := false |})
                  <$> host_legend_items legend_style (map_layers mp));
             CIMScaleLine
               (point_of (default (2.7713, 0.2371)%Q scalebar_position))
               0 scalebar_style;
             CIMMarkerNorthArrow
               (point_of (default (7.2704, 4.8844)%Q north_arrow_position))
               0 north_arrow_style ] |}.
Proof.
  intros Hlayer Hext Hmap Htxt Hlegend Hscalebar Hnorth.
  eexists. split.
  - eapply create_standard_layout_run; try done.
    + by rewrite Htxt.
    + by rewrite Hlegend.
    + by rewrite Hscalebar.
    + by rewrite Hnorth.
  - rewrite on_page_lookup. by destruct mapframe_extent.
Qed.

(** X15.  When one of the four styles looked up by
    [create_standard_layout] is not found, the call ends with
    [IndexError] at the [[0]] of that lookup. *)
Theorem missing_style_index_error map_obj layer layout_name title_text
    mapframe_extent title_position legend_position legend_size
    scalebar_position north_arrow_position s l ext mp :
  prj_layers s !! layer = Some l →
  host_getLayerExtent l = Done ext →
  prj_maps s !! map_obj = Some mp →
  host_listStyleItems "ArcGIS 2D" "TEXT" "Title (Serif)" = [] ∨
  host_listStyleItems "ArcGIS 2D" "LEGEND" "Legend 1" = [] ∨
  host_listStyleItems "ArcGIS 2D" "SCALE_BAR" "Scale Line 1 Metric" = [] ∨
  host_listStyleItems "ArcGIS 2D" "NORTH_ARROW" "ArcGIS North 1" = [] →
  (create_standard_layout map_obj layer layout_name title_text
     mapframe_extent title_position legend_position legend_size
     scalebar_position north_arrow_position s).1
  = Err (IndexError "list index out of range").
Proof.
  intros Hlayer Hext Hmap Hcase.
  unfold create_standard_layout. rewrite bind_run.
  change (createLayout 8.27%Q 5.83%Q "INCH" layout_name s)
    with (Ok (length (prj_layouts s)),
          on_page s {| lyt_name := layout_name; page_width := 8.27%Q;
                       page_height := 5.83%Q; page_units := "INCH";
                       lyt_elements := [] |}).
  cbv beta iota. unfold createMapFrame. step_add.
  rewrite bind_run, layout_getDefinition_run. cbv beta iota.
  rewrite bind_run, layout_setDefinition_run. cbv beta iota.
  rewrite bind_run. unfold getLayerExtent. rewrite bind_run.
  step_deref Hlayer. unfold lift at 1. rewrite Hext.
  simpl from_host. cbv beta iota. unfold camera_setExtent. step_update.
  rewrite bind_run. unfold lift at 1.
  destruct (host_listStyleItems "ArcGIS 2D" "TEXT" "Title (Serif)")
    as [|txt_style ?]; [done|].
  cbn [index0]. cbv beta iota.
  rewrite bind_run. unfold createTextElement.
  destruct (host_text_defaults _) as [placement font].
  rewrite add_element_run. cbv beta iota.
  unfold setAnchor. step_update.
  unfold set_fontFamilyName. step_update.
  rewrite bind_run. unfold lift at 1.
  destruct (host_listStyleItems "ArcGIS 2D" "LEGEND" "Legend 1")
    as [|legend_style ?]; [done|].
  cbn [index0]. cbv beta iota.
  rewrite bind_run, createMapSurroundElement_legend, bind_run.
  erewrite element_getDefinition_run by reflexivity. cbv beta iota.
  rewrite bind_run. step_deref Hmap.
  rewrite add_element_run. cbv beta iota.
  unfold set_elementWidth. step_update.
  unfold set_elementHeight. step_update.
  rewrite bind_run.
  erewrite element_getDefinition_run by reflexivity. cbv beta iota.
  rewrite bind_run. unfold lift at 1. cbn [hide_item_names]. cbv beta iota.
  rewrite bind_run, element_setDefinition_run. cbv beta iota.
  rewrite bind_run. unfold lift at 1.
  destruct (host_listStyleItems "ArcGIS 2D" "SCALE_BAR" "Scale Line 1 Metric")
    as [|scalebar_style ?]; [done|].
  cbn [index0]. cbv beta iota.
  rewrite bind_run, createMapSurroundElement_scale_bar, add_element_run.
  cbv beta iota.
  rewrite bind_run. unfold lift at 1.
  destruct (host_listStyleItems "ArcGIS 2D" "NORTH_ARROW" "ArcGIS North 1")
    as [|north_arrow_style ?]; [done|].
  by destruct Hcase as [?|[?|[?|?]]].
Qed.

(** X16.  The map and the layer returned by [create_single_map] can be
    handed to [create_standard_layout]: both exist in the project, and
    the layout call returns the first new layout whenever the extent of
    the layer can be computed and the four styles are found. *)
Theorem layout_after_single_map map_name layer_path layer_name renderer
    variable_name color_map label_map classification_method break_count
    s m layer s1 :
  create_single_map map_name layer_path layer_name renderer variable_name
    color_map label_map classification_method break_count s
    = (Ok (m, layer), s1) →
  ∃ l mp,
    prj_layers s1 !! layer = Some l ∧
    prj_maps s1 !! m = Some mp ∧
    ∀ layout_name title_text mapframe_extent title_position legend_position
      legend_size scalebar_position north_arrow_position ext
      txt_style txt_styles legend_style legend_styles
      scalebar_style scalebar_styles north_arrow_style north_arrow_styles,
      host_getLayerExtent l = Done ext →
      host_listStyleItems "ArcGIS 2D" "TEXT" "Title (Serif)"
        = txt_style :: txt_styles →
      host_listStyleItems "ArcGIS 2D" "LEGEND" "Legend 1"
        = legend_style :: legend_styles →
      host_listStyleItems "ArcGIS 2D" "SCALE_BAR" "Scale Line 1 Metric"
        = scalebar_style :: scalebar_styles →
      host_listStyleItems "ArcGIS 2D" "NORTH_ARROW" "ArcGIS North 1"
        = north_arrow_style :: north_arrow_styles →
      (create_standard_layout m layer layout_name title_text mapframe_extent
         title_position legend_position legend_size scalebar_position
         north_arrow_position s1).1
      = Ok (length (prj_layouts s)).
Proof.
  intros (l0 & sym & Hopen & Hstyle & -> & -> & ->)%create_single_map_Ok.
  pose proof (styled_state_layer _ sym _ _
                (loaded_state_layer map_name layer_name l0 s)) as Hl.
  eexists _, _. split; [exact Hl|].
  split; [rewrite styled_state_maps; apply snoc_lookup|].
  intros layout_name title_text mapframe_extent title_position
    legend_position legend_size scalebar_position north_arrow_position ext
    txt_style txt_styles legend_style legend_styles scalebar_style
    scalebar_styles north_arrow_style north_arrow_styles
    Hext Htxt Hlegend Hscalebar Hnorth.
  erewrite create_standard_layout_run.
  - simpl. by rewrite styled_state_layouts.
  - exact Hl.
  - exact Hext.
  - rewrite styled_state_maps. apply snoc_lookup.
  - by rewrite Htxt.
  - by rewrite Hlegend.
  - by rewrite Hscalebar.
  - by rewrite Hnorth.
Qed.

End LayoutExtras.

(** ** The further properties on the sample session *)

Lemma symbology_kept_on_error_witness :
  Sample.simple_run
    = (Err (ValueError "Unsupported renderer: SimpleRenderer"),
       Sample.simple_run.2) ∧
  prj_layers Sample.simple_run.2 !! 2%nat
  = Some {| lyr_name := "Districts"; isBasemapLayer := false;
            lyr_symbology := lyr_symbology Sample.districts |}.
Proof.
  split; [vm_compute; reflexivity|].
  apply (symbology_kept_on_error (H:=Sample.engine)
           "Districts" "data/districts.shp" "Districts" "SimpleRenderer"
           "zone_id" "Viridis" None None None Sample.empty_project
           (ValueError "Unsupported renderer: SimpleRenderer")
           Sample.simple_run.2 Sample.districts).
  - vm_compute. reflexivity.
  - vm_compute. reflexivity.
Defined.

Lemma returned_map_layers_witness :
  Sample.zone_run = (Ok (0%nat, 2%nat), Sample.zone_run.2) ∧
  ∃ mp, prj_maps Sample.zone_run.2 !! 0%nat = Some mp ∧
        (2%nat ∈ map_layers mp ↔ isBasemapLayer Sample.districts = false).
Proof.
  split; [vm_compute; reflexivity|].
  destruct (returned_map_layers (H:=Sample.engine)
              "Districts" "data/districts.shp" "Districts"
              "UniqueValueRenderer" "zone_id" "Viridis"
              (Some Sample.zone_labels) None None Sample.empty_project
              0%nat 2%nat Sample.zone_run.2)
    as (l0 & mp & Hopen & Hmp & _ & _ & Hin).
  - vm_compute. reflexivity.
  - vm_compute in Hopen. injection Hopen as <-. by exists mp.
Defined.

Lemma failed_load_leaves_map_witness :
  Trial.missing_file_run.1 = Err (HostError "cannot open dataset") ∧
  length (prj_maps Trial.missing_file_run.2) = 1%nat.
Proof.
  unfold Trial.missing_file_run.
  rewrite (failed_load_leaves_map (H:=Sample.engine)
             "Districts" "data/missing.shp" "Districts" "UniqueValueRenderer"
             "zone_id" "Viridis" None None None Sample.empty_project
             "cannot open dataset" eq_refl).
  split; reflexivity.
Defined.

Lemma no_color_ramp_index_error_witness :
  Sample.no_ramp_run.1 = Err (IndexError "list index out of range").
Proof.
  eapply (no_color_ramp_index_error (H:=Sample.engine)
            "Districts" "data/districts.shp" "Districts" "SimpleRenderer"
            "zone_id" "Magma" None None None Sample.empty_project);
    vm_compute; reflexivity.
Defined.

Lemma sort_is_stable_witness :
  ∃ sorted,
    list_sort first_value Trial.tied_items = Ok sorted ∧
    filter (has_first_value (PStr "b")) sorted
    = [Trial.labelled (PStr "b") "first"; Trial.labelled (PStr "b") "second"].
Proof.
  eexists. split; [vm_compute; reflexivity|].
  rewrite (sort_is_stable Trial.tied_items _ (PStr "b")).
  - vm_compute. reflexivity.
  - vm_compute. reflexivity.
Defined.

Lemma sort_mixed_values_type_error_witness :
  ∃ msg, list_sort first_value Trial.mixed_items = Err (TypeError msg).
Proof.
  apply (sort_mixed_values_type_error Trial.mixed_items
           (Trial.labelled (PInt 1) "one") (Trial.labelled (PStr "a") "a")
           1 "a").
  - repeat constructor; by eexists.
  - by left.
  - right. by left.
  - reflexivity.
  - reflexivity.
Defined.

Lemma unique_value_index_errors_witness :
  Trial.no_group_run.1 = Err (IndexError "list index out of range").
Proof.
  eapply (unique_value_index_errors (H:=Sample.engine)
            "Districts" "data/districts.shp" "Districts" "height" "Viridis"
            None None None Sample.empty_project
            Sample.districts _ {| ramp_name := "Viridis" |} _ _
            eq_refl eq_refl eq_refl eq_refl).
  left. vm_compute. reflexivity.
Defined.

Lemma unique_value_no_items_witness :
  Trial.empty_group_run.1 = Ok (0%nat, 2%nat).
Proof.
  destruct (unique_value_no_items (H:=Trial.bare_engine)
              "Districts" "data/districts.shp" "Districts" "zone_id"
              "Viridis" None None None Sample.empty_project
              Sample.districts _ {| ramp_name := "Viridis" |} _ _ _ _
              eq_refl eq_refl eq_refl eq_refl eq_refl eq_refl)
    as (s' & Hrun & _).
  unfold Trial.empty_group_run. by rewrite Hrun.
Defined.

Lemma unique_value_returns_witness :
  Sample.zone_run.1 = Ok (0%nat, 2%nat).
Proof.
  eapply (unique_value_returns (H:=Sample.engine)
            "Districts" "data/districts.shp" "Districts" "zone_id" "Viridis"
            Sample.zone_labels None None Sample.empty_project
            Sample.districts _ {| ramp_name := "Viridis" |} _ _ _ _
            eq_refl eq_refl eq_refl eq_refl eq_refl).
  cbn.
  repeat (apply Forall_cons; split;
          [eexists _, _, _; repeat split; vm_compute; reflexivity|]).
  apply Forall_nil. exact I.
Defined.


Lemma layout_built_witness :
  Sample.layout_run.1 = Ok 0%nat.
Proof.
  destruct (layout_built (H:=Sample.engine) 0%nat 2%nat "Zones"
              "Zones by district" None None None None None None
              Sample.zone_run.2 _ _ _ _ _ _ _ _ _ _ _
              eq_refl eq_refl eq_refl eq_refl eq_refl eq_refl eq_refl)
    as (s' & Hrun & _).
  unfold Sample.layout_run. by rewrite Hrun.
Defined.

Lemma missing_style_index_error_witness :
  (create_standard_layout (H:=Trial.bare_engine) 0%nat 2%nat "Zones"
     "Zones by district" None None None None None None Sample.zone_run.2).1
  = Err (IndexError "list index out of range").
Proof.
  eapply (missing_style_index_error (H:=Trial.bare_engine) 0%nat 2%nat
            "Zones" "Zones by district" None None None None None None
            Sample.zone_run.2 _ _ _ eq_refl eq_refl eq_refl).
  left. reflexivity.
Defined.

Lemma layout_after_single_map_witness :
  Sample.zone_run = (Ok (0%nat, 2%nat), Sample.zone_run.2) ∧
  Sample.layout_run.1 = Ok 0%nat.
Proof.
  split; [vm_compute; reflexivity|].
  destruct (layout_after_single_map (H:=Sample.engine)
              "Districts" "data/districts.shp" "Districts"
              "UniqueValueRenderer" "zone_id" "Viridis"
              (Some Sample.zone_labels) None None Sample.empty_project
              0%nat 2%nat Sample.zone_run.2)
    as (l & mp & Hl & Hmp & Hlayout).
  - vm_compute. reflexivity.
  - unfold Sample.layout_run.
    eapply (Hlayout "Zones" "Zones by district" None None None None None None);
      vm_compute; reflexivity.
Defined.
